(** * Fog4Det: the capture loop of the two views and the detection policy

    The repository's front end has two React components that run the same
    capture loop: [Home] (the developer view, with threshold sliders and a
    histogram) and [DriverView] (the driver view, with intensity and advice).
    Each component is embedded as a record of its [useState] values, its refs
    and the asynchronous work it has started (pending [getUserMedia] promises,
    pending [canvas.toBlob] callbacks, unresolved [axios.post] promises), and
    every handler of the component is a function on that record.  The browser
    delivers events one at a time; [step] dispatches one event and [run] a
    whole trace.

    JavaScript numbers that the client only stores and forwards are rationals
    ([Q]); pixel dimensions are [N]; the detection policy, whose code is the
    back end's, is stated over the reals as the specification words it. *)

From Stdlib Require Import List String Bool Arith ZArith NArith QArith Lia.
From Stdlib Require Import DecimalString DecimalNat Strings.Byte.
From Stdlib Require Import Reals Lra.
Import ListNotations.

Close Scope Q_scope.

(** ** Browser objects shared by both views *)

(** The encoded frame handed to the [toBlob] callback. *)
Definition Blob := list byte.

(** A [MediaStream] is the list of its tracks; a track is named by a number. *)
Definition MediaStreamTrack := nat.
Definition MediaStream := list MediaStreamTrack.

Record HTMLVideoElement := {
  srcObject : option MediaStream;
  paused : bool;
  ended : bool;
  videoWidth : N;
  videoHeight : N
}.

Record HTMLCanvasElement := {
  width : N;
  height : N
}.

(** What the browser answers during the synchronous part of one cycle:
    whether [canvas.getContext('2d')] returns a context and whether
    [context.drawImage] returns without throwing. *)
Record CaptureEnv := {
  contextAvailable : bool;
  drawSucceeds : bool
}.

(** One [axios.post]: the path under [BACKEND_URL], the search parameters of
    the URL in the order they were appended (none when the URL is the bare
    endpoint), the file of the form and the deadline in milliseconds. *)
Record Request := {
  path : string;
  searchParams : list (string * Q);
  file : Blob;
  fileName : string;
  timeout : Z
}.

(** The value caught by the [catch] around [axios.post]. *)
Inductive CaughtError :=
| AxiosError (code : option string) (response : option nat) (request : bool)
| OtherError.

Definition ECONNABORTED : string := "ECONNABORTED".

(** The usual shapes of a failed round trip. *)
Definition timeoutError : CaughtError := AxiosError (Some ECONNABORTED) None true.
Definition transportError : CaughtError := AxiosError (Some "ERR_NETWORK"%string) None true.
Definition serverError (status : nat) : CaughtError :=
  AxiosError (Some "ERR_BAD_RESPONSE"%string) (Some status) true.

Definition set_srcObject (o : option MediaStream) (v : HTMLVideoElement) :=
  {| srcObject := o; paused := paused v; ended := ended v;
     videoWidth := videoWidth v; videoHeight := videoHeight v |}.

(** [video.play()] on the muted element: the paused flag drops at once. *)
Definition play (v : HTMLVideoElement) :=
  {| srcObject := srcObject v; paused := false; ended := ended v;
     videoWidth := videoWidth v; videoHeight := videoHeight v |}.

Definition set_dimensions (w h : N) (v : HTMLVideoElement) :=
  {| srcObject := srcObject v; paused := paused v; ended := ended v;
     videoWidth := w; videoHeight := h |}.

(** The canvas is resized only when one of its dimensions differs. *)
Definition matchVideo (canvas : HTMLCanvasElement) (video : HTMLVideoElement) :=
  if negb (width canvas =? videoWidth video)%N
     || negb (height canvas =? videoHeight video)%N
  then {| width := videoWidth video; height := videoHeight video |}
  else canvas.

(** [stream.getTracks().forEach(track => track.stop())] on the set of live
    device tracks. *)
Definition stopTracks (stream : MediaStream) (live : list MediaStreamTrack) :=
  fold_left (fun l t => remove Nat.eq_dec t l) stream live.

(** Take the [i]-th pending item out of a list of pending work. *)
Definition take_nth {A} (i : nat) (l : list A) : option (A * list A) :=
  match nth_error l i with
  | Some a => Some (a, firstn i l ++ skipn (S i) l)
  | None => None
  end.

Definition string_of_nat (n : nat) : string :=
  NilEmpty.string_of_uint (Nat.to_uint n).

(** The mounted, idle elements a component starts with. *)
Definition idleVideo : HTMLVideoElement :=
  {| srcObject := None; paused := true; ended := false;
     videoWidth := 0; videoHeight := 0 |}.
Definition freshCanvas : HTMLCanvasElement := {| width := 300; height := 150 |}.

(** ** The developer view *)

Module Home.

Record DetectionResponse := {
  fog_detected : bool;
  laplacian_variance : Q;
  histogram_std_dev : Q;
  message : option string;
  timestamp : option string;
  histogram : option (list Q);
  laplacian_threshold_used : option Q;
  std_dev_threshold_used : option Q
}.

Record HistogramData := { bin : nat; frequency : Q }.

Definition DETECTION_INTERVAL_MS : Z := 1000.
Definition DEFAULT_LAPLACIAN_THRESHOLD : Q := 250.
Definition DEFAULT_HIST_STD_DEV_THRESHOLD : Q := 40.

(** The values of [useState]. *)
Record View := {
  isCameraOn : bool;
  detectionResult : option DetectionResponse;
  error : option string;
  isLoading : bool;
  isDetecting : bool;
  histogramData : list HistogramData;
  laplacianThreshold : Q;
  histStdDevThreshold : Q
}.

Definition setIsCameraOn (b : bool) (v : View) :=
  {| isCameraOn := b; detectionResult := detectionResult v; error := error v;
     isLoading := isLoading v; isDetecting := isDetecting v;
     histogramData := histogramData v;
     laplacianThreshold := laplacianThreshold v;
     histStdDevThreshold := histStdDevThreshold v |}.
Definition setDetectionResult (r : option DetectionResponse) (v : View) :=
  {| isCameraOn := isCameraOn v; detectionResult := r; error := error v;
     isLoading := isLoading v; isDetecting := isDetecting v;
     histogramData := histogramData v;
     laplacianThreshold := laplacianThreshold v;
     histStdDevThreshold := histStdDevThreshold v |}.
Definition setError (e : option string) (v : View) :=
  {| isCameraOn := isCameraOn v; detectionResult := detectionResult v; error := e;
     isLoading := isLoading v; isDetecting := isDetecting v;
     histogramData := histogramData v;
     laplacianThreshold := laplacianThreshold v;
     histStdDevThreshold := histStdDevThreshold v |}.
Definition setIsLoading (b : bool) (v : View) :=
  {| isCameraOn := isCameraOn v; detectionResult := detectionResult v; error := error v;
     isLoading := b; isDetecting := isDetecting v;
     histogramData := histogramData v;
     laplacianThreshold := laplacianThreshold v;
     histStdDevThreshold := histStdDevThreshold v |}.
Definition setIsDetecting (b : bool) (v : View) :=
  {| isCameraOn := isCameraOn v; detectionResult := detectionResult v; error := error v;
     isLoading := isLoading v; isDetecting := b;
     histogramData := histogramData v;
     laplacianThreshold := laplacianThreshold v;
     histStdDevThreshold := histStdDevThreshold v |}.
Definition setHistogramData (h : list HistogramData) (v : View) :=
  {| isCameraOn := isCameraOn v; detectionResult := detectionResult v; error := error v;
     isLoading := isLoading v; isDetecting := isDetecting v;
     histogramData := h;
     laplacianThreshold := laplacianThreshold v;
     histStdDevThreshold := histStdDevThreshold v |}.
Definition setLaplacianThreshold (q : Q) (v : View) :=
  {| isCameraOn := isCameraOn v; detectionResult := detectionResult v; error := error v;
     isLoading := isLoading v; isDetecting := isDetecting v;
     histogramData := histogramData v;
     laplacianThreshold := q;
     histStdDevThreshold := histStdDevThreshold v |}.
Definition setHistStdDevThreshold (q : Q) (v : View) :=
  {| isCameraOn := isCameraOn v; detectionResult := detectionResult v; error := error v;
     isLoading := isLoading v; isDetecting := isDetecting v;
     histogramData := histogramData v;
     laplacianThreshold := laplacianThreshold v;
     histStdDevThreshold := q |}.

(** [captureAndDetect] is memoised on the two thresholds, and the interval,
    the metadata listener and the [toBlob] callback all keep the instance
    they were created with: the thresholds a request sends are the ones
    captured when [startCamera] was called. *)
Record Closure := { capturedLaplacian : Q; capturedStdDev : Q }.

Record Timer := { period : Z; callback : Closure }.

Record State := {
  view : View;
  videoRef : option HTMLVideoElement;
  canvasRef : option HTMLCanvasElement;
  intervalRef : option Timer;
  isCameraOnRef : bool;
  metadataListeners : list Closure;
  acquiring : list Closure;
  encoding : list Closure;
  inFlight : list Request;
  liveTracks : list MediaStreamTrack
}.

Definition upd_view (f : View -> View) (s : State) :=
  {| view := f (view s); videoRef := videoRef s; canvasRef := canvasRef s;
     intervalRef := intervalRef s; isCameraOnRef := isCameraOnRef s;
     metadataListeners := metadataListeners s; acquiring := acquiring s;
     encoding := encoding s; inFlight := inFlight s; liveTracks := liveTracks s |}.
Definition set_videoRef (v : option HTMLVideoElement) (s : State) :=
  {| view := view s; videoRef := v; canvasRef := canvasRef s;
     intervalRef := intervalRef s; isCameraOnRef := isCameraOnRef s;
     metadataListeners := metadataListeners s; acquiring := acquiring s;
     encoding := encoding s; inFlight := inFlight s; liveTracks := liveTracks s |}.
Definition set_canvasRef (c : option HTMLCanvasElement) (s : State) :=
  {| view := view s; videoRef := videoRef s; canvasRef := c;
     intervalRef := intervalRef s; isCameraOnRef := isCameraOnRef s;
     metadataListeners := metadataListeners s; acquiring := acquiring s;
     encoding := encoding s; inFlight := inFlight s; liveTracks := liveTracks s |}.
Definition set_intervalRef (t : option Timer) (s : State) :=
  {| view := view s; videoRef := videoRef s; canvasRef := canvasRef s;
     intervalRef := t; isCameraOnRef := isCameraOnRef s;
     metadataListeners := metadataListeners s; acquiring := acquiring s;
     encoding := encoding s; inFlight := inFlight s; liveTracks := liveTracks s |}.
Definition set_isCameraOnRef (b : bool) (s : State) :=
  {| view := view s; videoRef := videoRef s; canvasRef := canvasRef s;
     intervalRef := intervalRef s; isCameraOnRef := b;
     metadataListeners := metadataListeners s; acquiring := acquiring s;
     encoding := encoding s; inFlight := inFlight s; liveTracks := liveTracks s |}.
Definition set_metadataListeners (l : list Closure) (s : State) :=
  {| view := view s; videoRef := videoRef s; canvasRef := canvasRef s;
     intervalRef := intervalRef s; isCameraOnRef := isCameraOnRef s;
     metadataListeners := l; acquiring := acquiring s;
     encoding := encoding s; inFlight := inFlight s; liveTracks := liveTracks s |}.
Definition set_acquiring (l : list Closure) (s : State) :=
  {| view := view s; videoRef := videoRef s; canvasRef := canvasRef s;
     intervalRef := intervalRef s; isCameraOnRef := isCameraOnRef s;
     metadataListeners := metadataListeners s; acquiring := l;
     encoding := encoding s; inFlight := inFlight s; liveTracks := liveTracks s |}.
Definition set_encoding (l : list Closure) (s : State) :=
  {| view := view s; videoRef := videoRef s; canvasRef := canvasRef s;
     intervalRef := intervalRef s; isCameraOnRef := isCameraOnRef s;
     metadataListeners := metadataListeners s; acquiring := acquiring s;
     encoding := l; inFlight := inFlight s; liveTracks := liveTracks s |}.
Definition set_inFlight (l : list Request) (s : State) :=
  {| view := view s; videoRef := videoRef s; canvasRef := canvasRef s;
     intervalRef := intervalRef s; isCameraOnRef := isCameraOnRef s;
     metadataListeners := metadataListeners s; acquiring := acquiring s;
     encoding := encoding s; inFlight := l; liveTracks := liveTracks s |}.
Definition set_liveTracks (l : list MediaStreamTrack) (s : State) :=
  {| view := view s; videoRef := videoRef s; canvasRef := canvasRef s;
     intervalRef := intervalRef s; isCameraOnRef := isCameraOnRef s;
     metadataListeners := metadataListeners s; acquiring := acquiring s;
     encoding := encoding s; inFlight := inFlight s; liveTracks := l |}.

(** *** captureAndDetect *)

(** The synchronous part: the guard, the canvas resize, the context, the
    draw, and the call of [canvas.toBlob], which only registers its
    callback. *)
Definition captureAndDetect (c : Closure) (env : CaptureEnv) (s : State) : State :=
  match videoRef s, canvasRef s with
  | Some video, Some canvas =>
      if negb (isCameraOnRef s) || paused video || ended video then s
      else
        let s1 := set_canvasRef (Some (matchVideo canvas video)) s in
        if negb (contextAvailable env) then s1
        else if negb (drawSucceeds env) then s1
        else set_encoding (encoding s1 ++ [c]) s1
  | _, _ => s
  end.

Definition detectRequest (c : Closure) (blob : Blob) : Request :=
  {| path := "/detect-fog";
     searchParams := [("laplacian_threshold"%string, capturedLaplacian c);
                      ("std_dev_threshold"%string, capturedStdDev c)];
     file := blob;
     fileName := "capture.jpg";
     timeout := 5000 |}.

(** The [toBlob] callback up to the [await]: a null blob returns, any
    other blob is posted. *)
Definition toBlobCallback (c : Closure) (blob : option Blob) (s : State) : State :=
  match blob with
  | None => s
  | Some b =>
      let s1 := upd_view (setIsDetecting true) s in
      set_inFlight (inFlight s1 ++ [detectRequest c b]) s1
  end.

Fixpoint processHistogram (index : nat) (h : list Q) : list HistogramData :=
  match h with
  | [] => []
  | value :: rest =>
      {| bin := index; frequency := value |} :: processHistogram (S index) rest
  end.

Inductive Outcome :=
| Resolved (data : DetectionResponse)
| Rejected (err : CaughtError).

(** The rest of the callback, run when the post settles: the [try] body
    after the [await], the [catch], then the [finally]. *)
Definition onSettled (o : Outcome) (s : State) : State :=
  let s1 :=
    match o with
    | Resolved data =>
        let s2 := upd_view (setDetectionResult (Some data)) s in
        let s3 := upd_view (setError None) s2 in
        match histogram data with
        | Some ((_ :: _) as h) => upd_view (setHistogramData (processHistogram 0 h)) s3
        | _ => upd_view (setHistogramData []) s3
        end
    | Rejected _ =>
        let s2 := upd_view (setDetectionResult None) s in
        upd_view (setHistogramData []) s2
    end in
  upd_view (setIsDetecting false) s1.

(** *** The loop *)

Definition stopDetectionLoop (s : State) : State :=
  match intervalRef s with
  | Some _ => set_intervalRef None s
  | None => s
  end.

Definition startDetectionLoop (c : Closure) (env : CaptureEnv) (s : State) : State :=
  let s1 := stopDetectionLoop s in
  let s2 := captureAndDetect c env s1 in
  set_intervalRef (Some {| period := DETECTION_INTERVAL_MS; callback := c |}) s2.

(** *** The camera *)

Definition currentClosure (s : State) : Closure :=
  {| capturedLaplacian := laplacianThreshold (view s);
     capturedStdDev := histStdDevThreshold (view s) |}.

(** The four setters that open [startCamera]. *)
Definition clearOutputs (s : State) : State :=
  let s1 := upd_view (setError None) s in
  let s2 := upd_view (setIsLoading true) s1 in
  let s3 := upd_view (setDetectionResult None) s2 in
  upd_view (setHistogramData []) s3.

(** [startCamera] up to [await getUserMedia]. *)
Definition startCamera (s : State) : State :=
  let c := currentClosure s in
  let s1 := clearOutputs s in
  set_acquiring (acquiring s1 ++ [c]) s1.

(** [startCamera] after the promise resolved with a stream. *)
Definition startCamera_acquired (c : Closure) (stream : MediaStream) (s : State) : State :=
  let s0 := set_liveTracks (liveTracks s ++ stream) s in
  match videoRef s0 with
  | Some video =>
      let s1 := set_videoRef (Some (set_srcObject (Some stream) video)) s0 in
      let s2 := upd_view (setIsCameraOn true) s1 in
      let s3 := set_metadataListeners (metadataListeners s2 ++ [c]) s2 in
      match videoRef s3 with
      | Some v => set_videoRef (Some (play v)) s3
      | None => s3
      end
  | None => s0
  end.

(** The [catch] of [startCamera]: the error is logged to the console. *)
Definition startCamera_failed (s : State) : State :=
  let s1 := upd_view (setIsLoading false) s in
  upd_view (setIsCameraOn false) s1.

Definition handleMetadataLoaded (c : Closure) (env : CaptureEnv) (s : State) : State :=
  let s1 := upd_view (setIsLoading false) s in
  let s2 := match videoRef s1 with
            | Some v => set_videoRef (Some (play v)) s1
            | None => s1
            end in
  startDetectionLoop c env s2.

Definition stopCamera (s : State) : State :=
  let s1 := stopDetectionLoop s in
  let s2 :=
    match videoRef s1 with
    | Some video =>
        match srcObject video with
        | Some stream =>
            let s' := set_liveTracks (stopTracks stream (liveTracks s1)) s1 in
            set_videoRef (Some (set_srcObject None video)) s'
        | None => s1
        end
    | None => s1
    end in
  let s3 := upd_view (setIsCameraOn false) s2 in
  let s4 := upd_view (setDetectionResult None) s3 in
  let s5 := upd_view (setHistogramData []) s4 in
  let s6 := upd_view (setIsLoading false) s5 in
  let s7 := upd_view (setIsDetecting false) s6 in
  upd_view (setError None) s7.

(** *** Events *)

Inductive Event :=
| StartCamera
| StopCamera
| UserMediaResolved (i : nat) (stream : MediaStream)
| UserMediaRejected (i : nat)
| LoadedMetadata (w h : N) (env : CaptureEnv)
| Tick (env : CaptureEnv)
| BlobReady (i : nat) (blob : option Blob)
| Settled (i : nat) (o : Outcome)
| LaplacianSlider (q : Q)
| StdDevSlider (q : Q).

(** The effect that copies [isCameraOn] into its ref after a render. *)
Definition syncRef (s : State) : State := set_isCameraOnRef (isCameraOn (view s)) s.

Definition dispatch (s : State) (e : Event) : State :=
  match e with
  | StartCamera => startCamera s
  | StopCamera => stopCamera s
  | UserMediaResolved i stream =>
      match take_nth i (acquiring s) with
      | Some (c, rest) => startCamera_acquired c stream (set_acquiring rest s)
      | None => s
      end
  | UserMediaRejected i =>
      match take_nth i (acquiring s) with
      | Some (_, rest) => startCamera_failed (set_acquiring rest s)
      | None => s
      end
  | LoadedMetadata w h env =>
      match videoRef s with
      | Some v =>
          let s1 := set_videoRef (Some (set_dimensions w h v)) s in
          let ls := metadataListeners s1 in
          fold_left (fun acc c => handleMetadataLoaded c env acc) ls
                    (set_metadataListeners [] s1)
      | None => s
      end
  | Tick env =>
      match intervalRef s with
      | Some t => captureAndDetect (callback t) env s
      | None => s
      end
  | BlobReady i blob =>
      match take_nth i (encoding s) with
      | Some (c, rest) => toBlobCallback c blob (set_encoding rest s)
      | None => s
      end
  | Settled i o =>
      match take_nth i (inFlight s) with
      | Some (_, rest) => onSettled o (set_inFlight rest s)
      | None => s
      end
  | LaplacianSlider q => upd_view (setLaplacianThreshold q) s
  | StdDevSlider q => upd_view (setHistStdDevThreshold q) s
  end.

Definition step (s : State) (e : Event) : State := syncRef (dispatch s e).

Definition run (s : State) (es : list Event) : State := fold_left step es s.

(** The component as mounted, before its mount effect calls [startCamera]. *)
Definition mounted : State :=
  {| view := {| isCameraOn := false; detectionResult := None; error := None;
                isLoading := false; isDetecting := false; histogramData := [];
                laplacianThreshold := DEFAULT_LAPLACIAN_THRESHOLD;
                histStdDevThreshold := DEFAULT_HIST_STD_DEV_THRESHOLD |};
     videoRef := Some idleVideo; canvasRef := Some freshCanvas;
     intervalRef := None; isCameraOnRef := false;
     metadataListeners := []; acquiring := []; encoding := [];
     inFlight := []; liveTracks := [] |}.

(** *** What the component renders

    The render reads [isCameraOnRef.current] as it is when the component
    function runs, that is before the effect that copies [isCameraOn] into
    the ref: the state rendered after an event is the one [dispatch]
    answers. *)

(** [detectionResult?.fog_detected ? 'bg-foggy-sky' : 'bg-clear-sky'] *)
Definition backgroundClass (s : State) : string :=
  match detectionResult (view s) with
  | Some r => if fog_detected r then "bg-foggy-sky"%string else "bg-clear-sky"%string
  | None => "bg-clear-sky"%string
  end.

(** The line of the status card. *)
Definition statusText (s : State) : string :=
  if isDetecting (view s) then "Detecting..."%string
  else match detectionResult (view s) with
       | Some r =>
           match message r with
           | Some m => m
           | None => if fog_detected r then "Fog Detected"%string else "Clear"%string
           end
       | None =>
           if negb (isCameraOnRef s) then "Camera Off"%string
           else "Initializing..."%string
       end.

(** The histogram card: the chart, or the text that stands for it. *)
Inductive HistogramCard :=
| Chart (data : list HistogramData)
| Placeholder (text : string).

Definition histogramCard (s : State) : HistogramCard :=
  if isCameraOn (view s) && (0 <? List.length (histogramData (view s)))%nat
  then Chart (histogramData (view s))
  else Placeholder (if negb (isCameraOn (view s)) then "Camera Off"%string
                    else if isLoading (view s) then "Loading..."%string
                    else "No histogram data"%string).

End Home.

(** ** The driver view *)

Module DriverView.

Inductive Intensity := Clear | Light | Heavy.

Record DetectionResponse := {
  fog_detected : bool;
  laplacian_variance : Q;
  histogram_std_dev : Q;
  intensity : Intensity;
  advice : string;
  message : option string;
  timestamp : option string;
  histogram : option (list Q);
  laplacian_threshold_used : option Q;
  std_dev_threshold_used : option Q
}.

Definition DETECTION_INTERVAL_MS : Z := 1500.

Record View := {
  isCameraOn : bool;
  detectionResult : option DetectionResponse;
  error : option string;
  isLoading : bool;
  isDetecting : bool
}.

Definition setIsCameraOn (b : bool) (v : View) :=
  {| isCameraOn := b; detectionResult := detectionResult v; error := error v;
     isLoading := isLoading v; isDetecting := isDetecting v |}.
Definition setDetectionResult (r : option DetectionResponse) (v : View) :=
  {| isCameraOn := isCameraOn v; detectionResult := r; error := error v;
     isLoading := isLoading v; isDetecting := isDetecting v |}.
(** [setError] takes an updater, as React's setter does; a plain value is
    the constant updater. *)
Definition setError (f : option string -> option string) (v : View) :=
  {| isCameraOn := isCameraOn v; detectionResult := detectionResult v;
     error := f (error v);
     isLoading := isLoading v; isDetecting := isDetecting v |}.
Definition setIsLoading (b : bool) (v : View) :=
  {| isCameraOn := isCameraOn v; detectionResult := detectionResult v; error := error v;
     isLoading := b; isDetecting := isDetecting v |}.
Definition setIsDetecting (b : bool) (v : View) :=
  {| isCameraOn := isCameraOn v; detectionResult := detectionResult v; error := error v;
     isLoading := isLoading v; isDetecting := b |}.

(** [captureAndDetect] has no dependencies, so the work it leaves pending
    carries no captured value and is only counted. *)
Record State := {
  view : View;
  videoRef : option HTMLVideoElement;
  canvasRef : option HTMLCanvasElement;
  intervalRef : option Z;
  isCameraOnRef : bool;
  metadataListeners : nat;
  acquiring : nat;
  encoding : nat;
  inFlight : list Request;
  liveTracks : list MediaStreamTrack
}.

Definition upd_view (f : View -> View) (s : State) :=
  {| view := f (view s); videoRef := videoRef s; canvasRef := canvasRef s;
     intervalRef := intervalRef s; isCameraOnRef := isCameraOnRef s;
     metadataListeners := metadataListeners s; acquiring := acquiring s;
     encoding := encoding s; inFlight := inFlight s; liveTracks := liveTracks s |}.
Definition set_videoRef (v : option HTMLVideoElement) (s : State) :=
  {| view := view s; videoRef := v; canvasRef := canvasRef s;
     intervalRef := intervalRef s; isCameraOnRef := isCameraOnRef s;
     metadataListeners := metadataListeners s; acquiring := acquiring s;
     encoding := encoding s; inFlight := inFlight s; liveTracks := liveTracks s |}.
Definition set_canvasRef (c : option HTMLCanvasElement) (s : State) :=
  {| view := view s; videoRef := videoRef s; canvasRef := c;
     intervalRef := intervalRef s; isCameraOnRef := isCameraOnRef s;
     metadataListeners := metadataListeners s; acquiring := acquiring s;
     encoding := encoding s; inFlight := inFlight s; liveTracks := liveTracks s |}.
Definition set_intervalRef (t : option Z) (s : State) :=
  {| view := view s; videoRef := videoRef s; canvasRef := canvasRef s;
     intervalRef := t; isCameraOnRef := isCameraOnRef s;
     metadataListeners := metadataListeners s; acquiring := acquiring s;
     encoding := encoding s; inFlight := inFlight s; liveTracks := liveTracks s |}.
Definition set_isCameraOnRef (b : bool) (s : State) :=
  {| view := view s; videoRef := videoRef s; canvasRef := canvasRef s;
     intervalRef := intervalRef s; isCameraOnRef := b;
     metadataListeners := metadataListeners s; acquiring := acquiring s;
     encoding := encoding s; inFlight := inFlight s; liveTracks := liveTracks s |}.
Definition set_metadataListeners (n : nat) (s : State) :=
  {| view := view s; videoRef := videoRef s; canvasRef := canvasRef s;
     intervalRef := intervalRef s; isCameraOnRef := isCameraOnRef s;
     metadataListeners := n; acquiring := acquiring s;
     encoding := encoding s; inFlight := inFlight s; liveTracks := liveTracks s |}.
Definition set_acquiring (n : nat) (s : State) :=
  {| view := view s; videoRef := videoRef s; canvasRef := canvasRef s;
     intervalRef := intervalRef s; isCameraOnRef := isCameraOnRef s;
     metadataListeners := metadataListeners s; acquiring := n;
     encoding := encoding s; inFlight := inFlight s; liveTracks := liveTracks s |}.
Definition set_encoding (n : nat) (s : State) :=
  {| view := view s; videoRef := videoRef s; canvasRef := canvasRef s;
     intervalRef := intervalRef s; isCameraOnRef := isCameraOnRef s;
     metadataListeners := metadataListeners s; acquiring := acquiring s;
     encoding := n; inFlight := inFlight s; liveTracks := liveTracks s |}.
Definition set_inFlight (l : list Request) (s : State) :=
  {| view := view s; videoRef := videoRef s; canvasRef := canvasRef s;
     intervalRef := intervalRef s; isCameraOnRef := isCameraOnRef s;
     metadataListeners := metadataListeners s; acquiring := acquiring s;
     encoding := encoding s; inFlight := l; liveTracks := liveTracks s |}.
Definition set_liveTracks (l : list MediaStreamTrack) (s : State) :=
  {| view := view s; videoRef := videoRef s; canvasRef := canvasRef s;
     intervalRef := intervalRef s; isCameraOnRef := isCameraOnRef s;
     metadataListeners := metadataListeners s; acquiring := acquiring s;
     encoding := encoding s; inFlight := inFlight s; liveTracks := l |}.

(** *** captureAndDetect *)

Definition captureAndDetect (env : CaptureEnv) (s : State) : State :=
  match videoRef s, canvasRef s with
  | Some video, Some canvas =>
      if negb (isCameraOnRef s) || paused video || ended video then s
      else
        let s1 := set_canvasRef (Some (matchVideo canvas video)) s in
        if negb (contextAvailable env) then s1
        else if negb (drawSucceeds env) then s1
        else set_encoding (S (encoding s1)) s1
  | _, _ => s
  end.

Definition detectRequest (blob : Blob) : Request :=
  {| path := "/detect-fog";
     searchParams := [];
     file := blob;
     fileName := "capture.jpg";
     timeout := 5000 |}.

Definition toBlobCallback (blob : option Blob) (s : State) : State :=
  match blob with
  | None => s
  | Some b =>
      let s1 := upd_view (setIsDetecting true) s in
      set_inFlight (inFlight s1 ++ [detectRequest b]) s1
  end.

(** The message the [catch] computes from what it caught. *)
Definition errorMsg (err : CaughtError) : string :=
  match err with
  | AxiosError code response request =>
      if match code with Some c => String.eqb c ECONNABORTED | None => false end
      then "Connection timeout."
      else match response with
           | Some status => String.append "Server error: " (string_of_nat status)
           | None => if request then "No server response." else "System error."
           end
  | OtherError => "System error."
  end.

(** [(prev) => (prev === errorMsg ? prev : errorMsg)] *)
Definition keepIfSame (msg : string) (prev : option string) : option string :=
  match prev with
  | Some p => if String.eqb p msg then prev else Some msg
  | None => Some msg
  end.

Inductive Outcome :=
| Resolved (data : DetectionResponse)
| Rejected (err : CaughtError).

Definition onSettled (o : Outcome) (s : State) : State :=
  let s1 :=
    match o with
    | Resolved data =>
        let s2 := upd_view (setDetectionResult (Some data)) s in
        upd_view (setError (fun _ => None)) s2
    | Rejected err =>
        let s2 := upd_view (setError (keepIfSame (errorMsg err))) s in
        upd_view (setDetectionResult None) s2
    end in
  upd_view (setIsDetecting false) s1.

(** *** The loop *)

Definition stopDetectionLoop (s : State) : State :=
  match intervalRef s with
  | Some _ => set_intervalRef None s
  | None => s
  end.

Definition startDetectionLoop (env : CaptureEnv) (s : State) : State :=
  let s1 := stopDetectionLoop s in
  let s2 := captureAndDetect env s1 in
  set_intervalRef (Some DETECTION_INTERVAL_MS) s2.

(** *** The camera *)

Definition clearOutputs (s : State) : State :=
  let s1 := upd_view (setError (fun _ => None)) s in
  let s2 := upd_view (setIsLoading true) s1 in
  upd_view (setDetectionResult None) s2.

Definition startCamera (s : State) : State :=
  let s1 := clearOutputs s in
  set_acquiring (S (acquiring s1)) s1.

Definition startCamera_acquired (stream : MediaStream) (s : State) : State :=
  let s0 := set_liveTracks (liveTracks s ++ stream) s in
  match videoRef s0 with
  | Some video =>
      let s1 := set_videoRef (Some (set_srcObject (Some stream) video)) s0 in
      let s2 := upd_view (setIsCameraOn true) s1 in
      let s3 := set_metadataListeners (S (metadataListeners s2)) s2 in
      match videoRef s3 with
      | Some v => set_videoRef (Some (play v)) s3
      | None => s3
      end
  | None => s0
  end.

Definition cameraUnavailable : string := "Camera unavailable. Check permissions.".

Definition startCamera_failed (s : State) : State :=
  let s1 := upd_view (setError (fun _ => Some cameraUnavailable)) s in
  let s2 := upd_view (setIsLoading false) s1 in
  upd_view (setIsCameraOn false) s2.

Definition handleMetadataLoaded (env : CaptureEnv) (s : State) : State :=
  let s1 := upd_view (setIsLoading false) s in
  let s2 := match videoRef s1 with
            | Some v => set_videoRef (Some (play v)) s1
            | None => s1
            end in
  startDetectionLoop env s2.

Definition stopCamera (s : State) : State :=
  let s1 := stopDetectionLoop s in
  let s2 :=
    match videoRef s1 with
    | Some video =>
        match srcObject video with
        | Some stream =>
            let s' := set_liveTracks (stopTracks stream (liveTracks s1)) s1 in
            set_videoRef (Some (set_srcObject None video)) s'
        | None => s1
        end
    | None => s1
    end in
  let s3 := upd_view (setIsCameraOn false) s2 in
  let s4 := upd_view (setDetectionResult None) s3 in
  let s5 := upd_view (setIsLoading false) s4 in
  let s6 := upd_view (setIsDetecting false) s5 in
  upd_view (setError (fun _ => None)) s6.

(** *** Events *)

Inductive Event :=
| StartCamera
| StopCamera
| UserMediaResolved (stream : MediaStream)
| UserMediaRejected
| LoadedMetadata (w h : N) (env : CaptureEnv)
| Tick (env : CaptureEnv)
| BlobReady (blob : option Blob)
| Settled (i : nat) (o : Outcome).

Definition syncRef (s : State) : State := set_isCameraOnRef (isCameraOn (view s)) s.

Definition dispatch (s : State) (e : Event) : State :=
  match e with
  | StartCamera => startCamera s
  | StopCamera => stopCamera s
  | UserMediaResolved stream =>
      match acquiring s with
      | S n => startCamera_acquired stream (set_acquiring n s)
      | O => s
      end
  | UserMediaRejected =>
      match acquiring s with
      | S n => startCamera_failed (set_acquiring n s)
      | O => s
      end
  | LoadedMetadata w h env =>
      match videoRef s with
      | Some v =>
          let s1 := set_videoRef (Some (set_dimensions w h v)) s in
          Nat.iter (metadataListeners s1) (handleMetadataLoaded env)
                   (set_metadataListeners 0 s1)
      | None => s
      end
  | Tick env =>
      match intervalRef s with
      | Some _ => captureAndDetect env s
      | None => s
      end
  | BlobReady blob =>
      match encoding s with
      | S n => toBlobCallback blob (set_encoding n s)
      | O => s
      end
  | Settled i o =>
      match take_nth i (inFlight s) with
      | Some (_, rest) => onSettled o (set_inFlight rest s)
      | None => s
      end
  end.

Definition step (s : State) (e : Event) : State := syncRef (dispatch s e).

Definition run (s : State) (es : list Event) : State := fold_left step es s.

Definition mounted : State :=
  {| view := {| isCameraOn := false; detectionResult := None; error := None;
                isLoading := false; isDetecting := false |};
     videoRef := Some idleVideo; canvasRef := Some freshCanvas;
     intervalRef := None; isCameraOnRef := false;
     metadataListeners := 0; acquiring := 0; encoding := 0;
     inFlight := []; liveTracks := [] |}.

(** *** What the component renders *)

Record IntensityStyles := { background : string; text : string; icon : string }.

Definition getIntensityStyles (i : option Intensity) : IntensityStyles :=
  match i with
  | Some Heavy =>
      {| background := "bg-red-700"; text := "text-white"; icon := "🚨" |}
  | Some Light =>
      {| background := "bg-yellow-500"; text := "text-black"; icon := "⚠️" |}
  | Some Clear | None =>
      {| background := "bg-green-600"; text := "text-white"; icon := "✅" |}
  end.

(** [getIntensityStyles(detectionResult?.intensity ?? null)] *)
Definition intensityStyles (s : State) : IntensityStyles :=
  getIntensityStyles (option_map intensity (detectionResult (view s))).

Definition intensityName (i : Intensity) : string :=
  match i with
  | Clear => "Clear"
  | Light => "Light"
  | Heavy => "Heavy"
  end.

(** The content of the advice card. *)
Inductive Card :=
| InitializingSystem
| CameraDisconnected
| Advice (icon heading advice : string) (updating : bool)
| Waiting (text : string).

Definition adviceCard (s : State) : Card :=
  if isLoading (view s) then InitializingSystem
  else if negb (isCameraOnRef s) then CameraDisconnected
  else match detectionResult (view s) with
       | Some r =>
           Advice (icon (intensityStyles s))
                  (String.append (intensityName (intensity r)) " Fog")
                  (advice r)
                  (isDetecting (view s))
       | None =>
           Waiting (if isDetecting (view s) then "Detecting..."%string
                    else "Initializing..."%string)
       end.

End DriverView.

(** ** Scenarios and predicates of the statements *)

Definition working : CaptureEnv := {| contextAvailable := true; drawSucceeds := true |}.
Definition noContext : CaptureEnv := {| contextAvailable := false; drawSucceeds := true |}.
Definition drawThrows : CaptureEnv := {| contextAvailable := true; drawSucceeds := false |}.

(** A (tiny) encoded frame and a stream with one video track. *)
Definition jpeg : Blob := [xff; xd8; xff; xd9]%byte.
Definition rearCamera : MediaStream := [7%nat].

(** The stream attached to the video element, and its tracks. *)
Definition attached (videoRef : option HTMLVideoElement) : option MediaStream :=
  match videoRef with
  | Some video => srcObject video
  | None => None
  end.



(** The guard that opens [captureAndDetect] lets the cycle through. *)
Definition guardPasses (videoRef : option HTMLVideoElement)
    (canvasRef : option HTMLCanvasElement) (isCameraOnRef : bool) : bool :=
  match videoRef, canvasRef with
  | Some video, Some _ => isCameraOnRef && negb (paused video) && negb (ended video)
  | _, _ => false
  end.

Definition home_ready (s : Home.State) : bool :=
  guardPasses (Home.videoRef s) (Home.canvasRef s) (Home.isCameraOnRef s).

Definition driver_ready (s : DriverView.State) : bool :=
  guardPasses (DriverView.videoRef s) (DriverView.canvasRef s) (DriverView.isCameraOnRef s).

Definition home_foggy : Home.DetectionResponse :=
  {| Home.fog_detected := true;
     Home.laplacian_variance := 12;
     Home.histogram_std_dev := 5;
     Home.message := Some "Fog Detected"%string;
     Home.timestamp := Some "2025-04-20T10:00:00"%string;
     Home.histogram := Some [3%Q; 1%Q];
     Home.laplacian_threshold_used := Some 250%Q;
     Home.std_dev_threshold_used := Some 40%Q |}.

Definition driver_foggy : DriverView.DetectionResponse :=
  {| DriverView.fog_detected := true;
     DriverView.laplacian_variance := 12;
     DriverView.histogram_std_dev := 5;
     DriverView.intensity := DriverView.Heavy;
     DriverView.advice := "Pull over safely"%string;
     DriverView.message := None;
     DriverView.timestamp := Some "2025-04-20T10:00:00"%string;
     DriverView.histogram := None;
     DriverView.laplacian_threshold_used := Some 250%Q;
     DriverView.std_dev_threshold_used := Some 40%Q |}.

(** A session up to its first submission: start, the camera is granted, the
    metadata arrives (which starts the loop and runs the immediate cycle),
    and the encoder delivers the frame, which is posted. *)
Definition home_session : list Home.Event :=
  [Home.StartCamera;
   Home.UserMediaResolved 0 rearCamera;
   Home.LoadedMetadata 640 480 working;
   Home.BlobReady 0 (Some jpeg)].

Definition driver_session : list DriverView.Event :=
  [DriverView.StartCamera;
   DriverView.UserMediaResolved rearCamera;
   DriverView.LoadedMetadata 640 480 working;
   DriverView.BlobReady (Some jpeg)].

(** The next tick fires, and its frame is encoded, while the first
    submission is still unresolved. *)
Definition home_slow_service : list Home.Event :=
  home_session ++ [Home.Tick working; Home.BlobReady 0 (Some jpeg)].

Definition driver_slow_service : list DriverView.Event :=
  driver_session ++ [DriverView.Tick working; DriverView.BlobReady (Some jpeg)].







(** The first submission of a session times out. *)
Definition home_timeout : list Home.Event :=
  home_session ++ [Home.Settled 0 (Home.Rejected timeoutError)].

Definition driver_timeout : list DriverView.Event :=
  driver_session ++ [DriverView.Settled 0 (DriverView.Rejected timeoutError)].

(** The camera is refused. *)
Definition home_denied : list Home.Event := [Home.StartCamera; Home.UserMediaRejected 0].
Definition driver_denied : list DriverView.Event :=
  [DriverView.StartCamera; DriverView.UserMediaRejected].

(** Requests as the developer view builds them. *)
Definition thresholdParams (lt st : Q) : list (string * Q) :=
  [("laplacian_threshold"%string, lt); ("std_dev_threshold"%string, st)].

Definition carriesThresholds (r : Request) : Prop :=
  exists lt st, searchParams r = thresholdParams lt st.

Definition carriesDefaults (r : Request) : Prop :=
  searchParams r = thresholdParams 250 40.

Definition carriesNoParams (r : Request) : Prop := searchParams r = [].

(** The events by which the user moves a slider. *)
Definition isSlider (e : Home.Event) : bool :=
  match e with
  | Home.LaplacianSlider _ | Home.StdDevSlider _ => true
  | _ => false
  end.





(** A running loop between events: the timer is installed, the guard of
    [captureAndDetect] passes and the camera flag is on. *)
Definition home_running (s : Home.State) (t : Home.Timer) : Prop :=
  Home.intervalRef s = Some t /\ home_ready s = true
  /\ Home.isCameraOn (Home.view s) = true.



(** What holds of the developer view between events when every captured
    pair of thresholds satisfies [P] and every unresolved request [R]. *)
Definition home_inv (P : Home.Closure -> Prop) (R : Request -> Prop)
    (s : Home.State) : Prop :=
  P (Home.currentClosure s)
  /\ Forall P (Home.acquiring s)
  /\ Forall P (Home.metadataListeners s)
  /\ Forall P (Home.encoding s)
  /\ (forall t, Home.intervalRef s = Some t -> P (Home.callback t))
  /\ Forall R (Home.inFlight s).

Definition defaultClosure : Home.Closure :=
  {| Home.capturedLaplacian := Home.DEFAULT_LAPLACIAN_THRESHOLD;
     Home.capturedStdDev := Home.DEFAULT_HIST_STD_DEV_THRESHOLD |}.

(** ** The detection service

    The service is the repository's back end; the front end only declares the
    shape of its answer.  Its policy is therefore taken from the
    specification (section 4.4), over the reals as the specification types
    thresholds and metrics. *)

Module DetectionService.

Local Open Scope R_scope.

Inductive Intensity := Clear | Light | Heavy.

Record Pixel := { red : Z; green : Z; blue : Z }.

(** Frame: raw pixel buffer (width x height x 3 colour channels), row by row. *)
Record Frame := {
  frameWidth : nat;
  frameHeight : nat;
  pixels : list Pixel
}.

Record GrayscaleImage := {
  grayWidth : nat;
  grayHeight : nat;
  intensities : list Z
}.

Record ThresholdConfig := { laplacianThreshold : R; stdDevThreshold : R }.

Record DetectionMetrics := { laplacianVariance : R; histogramStdDev : R }.

Record DetectionResult := {
  fogDetected : bool;
  intensity : Intensity;
  advice : string;
  metrics : DetectionMetrics;
  thresholdsUsed : ThresholdConfig;
  histogram : list nat
}.

(** A buffer that holds exactly one pixel per position. *)
Definition wellFormed (f : Frame) : Prop :=
  List.length (pixels f) = (frameHeight f * frameWidth f)%nat.

(** A constant image: every pixel of the buffer is the same. *)
Definition uniform (f : Frame) : Prop :=
  exists p, Forall (eq p) (pixels f).

Definition sumR (l : list R) : R := fold_right Rplus 0 l.

Definition mean (l : list R) : R := sumR l / INR (List.length l).

Definition variance (l : list R) : R :=
  mean (map (fun x => (x - mean l) * (x - mean l)) l).

(** The sum, over the bins of a histogram that starts at bin [b], of the
    count of the bin times [f] of the bin. *)
Fixpoint weighted (f : nat -> R) (b : nat) (h : list nat) : R :=
  match h with
  | [] => 0
  | n :: rest => INR n * f b + weighted f (S b) rest
  end.

Definition histTotal (h : list nat) : R := weighted (fun _ => 1) 0 h.

Definition histMean (h : list nat) : R := weighted INR 0 h / histTotal h.

Definition histVariance (h : list nat) : R :=
  weighted (fun b => (INR b - histMean h) * (INR b - histMean h)) 0 h / histTotal h.

(** Modelled from the spec: the classification policy of [detect], whose
    code is the back end's and is not part of the front-end sources. Fog is
    detected when both metrics are below their thresholds; the shortfall is
    one minus the smaller of the two metric-to-threshold ratios. *)
Definition shortfall (m : DetectionMetrics) (t : ThresholdConfig) : R :=
  1 - Rmin (laplacianVariance m / laplacianThreshold t)
           (histogramStdDev m / stdDevThreshold t).

Definition classifyFog (m : DetectionMetrics) (t : ThresholdConfig) : bool :=
  if Rlt_dec (laplacianVariance m) (laplacianThreshold t)
  then if Rlt_dec (histogramStdDev m) (stdDevThreshold t) then true else false
  else false.

Definition classifyIntensity (m : DetectionMetrics) (t : ThresholdConfig) : Intensity :=
  if Rlt_dec (shortfall m t) 0 then Clear
  else if Rlt_dec (shortfall m t) (1 / 2) then Light
  else Heavy.

Definition adviceFor (i : Intensity) : string :=
  match i with
  | Clear => "Conditions clear"
  | Light => "Reduce speed, use fog lights"
  | Heavy => "Pull over safely if visibility is critical"
  end.

(** What every border rule guarantees: the coordinate it answers is one of
    the image. *)
Definition insideImage (border : nat -> Z -> nat) : Prop :=
  forall n i, (0 < n)%nat -> (border n i < n)%nat.

Section Pipeline.

(** The specification fixes neither the weights of the grayscale
    conversion nor the treatment of the image border by the Laplacian:
    [luma] is any weighting of the three channels, and [border n i] is
    the coordinate that stands for coordinate [i] along an axis of
    length [n] (see [insideImage]). *)
Variable luma : Pixel -> Z.
Variable border : nat -> Z -> nat.

Definition saturate (z : Z) : Z := Z.max 0 (Z.min 255 z).

(** Modelled from the spec: step 1 of [detect], the conversion to
    single-channel intensities in 0..255. *)
Definition toGrayscale (f : Frame) : GrayscaleImage :=
  {| grayWidth := frameWidth f;
     grayHeight := frameHeight f;
     intensities := map (fun p => saturate (luma p)) (pixels f) |}.

Definition grayAt (g : GrayscaleImage) (y x : nat) : Z :=
  nth (y * grayWidth g + x) (intensities g) 0%Z.

Definition sample (g : GrayscaleImage) (y x : Z) : Z :=
  grayAt g (border (grayHeight g) y) (border (grayWidth g) x).

(** Modelled from the spec: step 2 of [detect], the discrete Laplacian
    (the five-point second-derivative kernel) and the variance of its
    responses. *)
Definition laplacianAt (g : GrayscaleImage) (y x : nat) : Z :=
  let y' := Z.of_nat y in
  let x' := Z.of_nat x in
  (sample g (y' - 1) x' + sample g (y' + 1) x'
   + sample g y' (x' - 1) + sample g y' (x' + 1)
   - 4 * sample g y' x')%Z.

Definition laplacian (g : GrayscaleImage) : list Z :=
  flat_map (fun y => map (laplacianAt g y) (seq 0 (grayWidth g)))
           (seq 0 (grayHeight g)).

Definition laplacianVarianceOf (g : GrayscaleImage) : R :=
  variance (map IZR (laplacian g)).

(** Modelled from the spec: step 3 of [detect], the 256-bin histogram of
    the intensities and the standard deviation of the distribution it
    describes. *)
Definition histogramOf (g : GrayscaleImage) : list nat :=
  map (fun b => count_occ Z.eq_dec (intensities g) (Z.of_nat b)) (seq 0 256).

Definition histogramStdDevOf (g : GrayscaleImage) : R :=
  sqrt (histVariance (histogramOf g)).

Definition measure (g : GrayscaleImage) : DetectionMetrics :=
  {| laplacianVariance := laplacianVarianceOf g;
     histogramStdDev := histogramStdDevOf g |}.

(** Modelled from the spec: the operation [detect] of the back end,
    steps 1 to 5 in order. *)
Definition detect (f : Frame) (lt st : R) : DetectionResult :=
  let g := toGrayscale f in
  let m := measure g in
  let t := {| laplacianThreshold := lt; stdDevThreshold := st |} in
  let i := classifyIntensity m t in
  {| fogDetected := classifyFog m t;
     intensity := i;
     advice := adviceFor i;
     metrics := m;
     thresholdsUsed := t;
     histogram := histogramOf g |}.

End Pipeline.

(** Two concrete choices for what the specification leaves open: the
    integer average of the channels, and the border that repeats the
    nearest pixel. *)
Definition average (p : Pixel) : Z := ((red p + green p + blue p) / 3)%Z.

Definition replicate (n : nat) (i : Z) : nat :=
  Z.to_nat (Z.max 0 (Z.min (Z.of_nat n - 1) i)).

Definition midGray : Pixel := {| red := 128; green := 128; blue := 128 |}.

Definition solid (w h : nat) (p : Pixel) : Frame :=
  {| frameWidth := w; frameHeight := h; pixels := repeat p (h * w) |}.

End DetectionService.

(** * Properties *)

Example home_session_state :
  let s := Home.run Home.mounted home_session in
  Home.inFlight s = [Home.detectRequest defaultClosure jpeg]
  /\ Home.isDetecting (Home.view s) = true
  /\ Home.intervalRef s = Some {| Home.period := 1000; Home.callback := defaultClosure |}
  /\ home_ready s = true.
Proof. repeat split; reflexivity. Qed.

Example driver_session_state :
  let s := DriverView.run DriverView.mounted driver_session in
  DriverView.inFlight s = [DriverView.detectRequest jpeg]
  /\ DriverView.isDetecting (DriverView.view s) = true
  /\ DriverView.intervalRef s = Some 1500%Z
  /\ driver_ready s = true.
Proof. repeat split; reflexivity. Qed.

(** Case analysis on every [match] the goal is stuck on. *)
Ltac by_cases :=
  repeat match goal with
         | |- context [match ?x with _ => _ end] => destruct x eqn:?; cbn
         end;
  try reflexivity; try assumption.

(** ** Pending work *)

Lemma take_nth_last {A} (l : list A) (a : A) :
  take_nth (List.length l) (l ++ [a]) = Some (a, l).
Proof.
  unfold take_nth.
  rewrite nth_error_app2 by lia.
  rewrite Nat.sub_diag; cbn [nth_error].
  rewrite firstn_app, firstn_all, Nat.sub_diag; cbn [firstn].
  rewrite skipn_app, skipn_all2 by lia.
  replace (S (List.length l) - List.length l) with 1 by lia.
  cbn [skipn]. now rewrite !app_nil_r.
Qed.

Lemma take_nth_Forall {A} (P : A -> Prop) i (l : list A) a rest :
  take_nth i l = Some (a, rest) -> Forall P l -> P a /\ Forall P rest.
Proof.
  unfold take_nth. destruct (nth_error l i) as [x|] eqn:E; [|discriminate].
  intros [= <- <-] H. split.
  - rewrite Forall_forall in H. eauto using nth_error_In.
  - rewrite <- (firstn_skipn i l) in H. apply Forall_app in H as [H1 H2].
    apply Forall_app. split; [exact H1|].
    rewrite <- (firstn_skipn 1 (skipn i l)) in H2.
    apply Forall_app in H2 as [_ H2]. now rewrite skipn_skipn in H2.
Qed.

Lemma guardPasses_inv v c r :
  guardPasses v c r = true ->
  exists video canvas, v = Some video /\ c = Some canvas
    /\ negb r || paused video || ended video = false.
Proof.
  unfold guardPasses. destruct v as [video|]; [|discriminate].
  destruct c as [canvas|]; [|discriminate].
  intros H. exists video, canvas. repeat split.
  destruct r, (paused video), (ended video); cbn in *; congruence.
Qed.

(** A cycle whose guard passes and whose frame is drawn leaves exactly one
    more [toBlob] callback pending, and touches nothing but the canvas. *)
Lemma home_captureAndDetect_drawn s c env :
  home_ready s = true -> contextAvailable env = true -> drawSucceeds env = true ->
  Home.encoding (Home.captureAndDetect c env s) = Home.encoding s ++ [c]
  /\ Home.inFlight (Home.captureAndDetect c env s) = Home.inFlight s
  /\ Home.view (Home.captureAndDetect c env s) = Home.view s.
Proof.
  intros Hr Hc Hd. apply guardPasses_inv in Hr as (video & canvas & Hv & Hcv & Hg).
  unfold Home.captureAndDetect. rewrite Hv, Hcv, Hg, Hc, Hd. cbn. auto.
Qed.

Lemma driver_captureAndDetect_drawn s env :
  driver_ready s = true -> contextAvailable env = true -> drawSucceeds env = true ->
  DriverView.encoding (DriverView.captureAndDetect env s) = S (DriverView.encoding s)
  /\ DriverView.inFlight (DriverView.captureAndDetect env s) = DriverView.inFlight s
  /\ DriverView.view (DriverView.captureAndDetect env s) = DriverView.view s.
Proof.
  intros Hr Hc Hd. apply guardPasses_inv in Hr as (video & canvas & Hv & Hcv & Hg).
  unfold DriverView.captureAndDetect. rewrite Hv, Hcv, Hg, Hc, Hd. cbn. auto.
Qed.

(** ** C1: ticks while a submission is unresolved *)

(** C1, as stated, fails: in both views the tick that fires while the first
    submission of a session is still unresolved is not skipped; its frame is
    encoded and posted, and two submissions are outstanding together. *)
Lemma slow_service_overlaps_submissions :
  List.length (Home.inFlight (Home.run Home.mounted home_session)) = 1
  /\ Home.isDetecting (Home.view (Home.run Home.mounted home_session)) = true
  /\ List.length (Home.inFlight (Home.run Home.mounted home_slow_service)) = 2
  /\ List.length (DriverView.inFlight (DriverView.run DriverView.mounted driver_session)) = 1
  /\ DriverView.isDetecting (DriverView.view (DriverView.run DriverView.mounted driver_session))
     = true
  /\ List.length (DriverView.inFlight (DriverView.run DriverView.mounted driver_slow_service))
     = 2.
Proof. repeat split; reflexivity. Qed.

(** C1, amended: a tick of a running loop does not look at what is in
    flight. In both views, whenever the guard on the elements passes and the
    frame is drawn, the tick leaves one more encode pending, and when that
    encode delivers its blob a new request joins the unresolved ones,
    however many these are. *)
Theorem tick_submits_whatever_is_in_flight
    (h : Home.State) (t : Home.Timer) (d : DriverView.State) (p : Z)
    (env : CaptureEnv) (blob : Blob) :
  Home.intervalRef h = Some t -> home_ready h = true ->
  DriverView.intervalRef d = Some p -> driver_ready d = true ->
  contextAvailable env = true -> drawSucceeds env = true ->
  let h1 := Home.step h (Home.Tick env) in
  let h2 := Home.step h1 (Home.BlobReady (List.length (Home.encoding h)) (Some blob)) in
  let d1 := DriverView.step d (DriverView.Tick env) in
  let d2 := DriverView.step d1 (DriverView.BlobReady (Some blob)) in
  Home.encoding h1 = Home.encoding h ++ [Home.callback t]
  /\ Home.inFlight h2 = Home.inFlight h ++ [Home.detectRequest (Home.callback t) blob]
  /\ DriverView.encoding d1 = S (DriverView.encoding d)
  /\ DriverView.inFlight d2 = DriverView.inFlight d ++ [DriverView.detectRequest blob].
Proof.
  intros Ht Hr Hp Hdr Hc Hd.
  destruct (home_captureAndDetect_drawn h (Home.callback t) env Hr Hc Hd) as (He & Hf & _).
  destruct (driver_captureAndDetect_drawn d env Hdr Hc Hd) as (He' & Hf' & _).
  cbn zeta. unfold Home.step, DriverView.step.
  cbn [Home.dispatch DriverView.dispatch]. rewrite Ht, Hp.
  repeat split.
  - exact He.
  - cbn [Home.syncRef Home.set_isCameraOnRef Home.encoding Home.inFlight].
    rewrite He, take_nth_last. cbn. now rewrite Hf.
  - exact He'.
  - cbn [DriverView.syncRef DriverView.set_isCameraOnRef DriverView.encoding
         DriverView.inFlight].
    rewrite He'. cbn. now rewrite Hf'.
Qed.

Lemma tick_submits_whatever_is_in_flight_witness :
  let h := Home.run Home.mounted home_session in
  let d := DriverView.run DriverView.mounted driver_session in
  Home.inFlight (Home.run h [Home.Tick working; Home.BlobReady 0 (Some jpeg)])
  = Home.inFlight h ++ [Home.detectRequest defaultClosure jpeg]
  /\ DriverView.inFlight
       (DriverView.run d [DriverView.Tick working; DriverView.BlobReady (Some jpeg)])
     = DriverView.inFlight d ++ [DriverView.detectRequest jpeg].
Proof.
  pose proof (tick_submits_whatever_is_in_flight
                (Home.run Home.mounted home_session)
                {| Home.period := 1000; Home.callback := defaultClosure |}
                (DriverView.run DriverView.mounted driver_session)
                1500%Z working jpeg
                eq_refl eq_refl eq_refl eq_refl eq_refl eq_refl) as (_ & H1 & _ & H2).
  split; [exact H1 | exact H2].
Defined.

(** ** What the handlers leave alone *)

Lemma home_captureAndDetect_frame s c env :
  Home.view (Home.captureAndDetect c env s) = Home.view s
  /\ Home.inFlight (Home.captureAndDetect c env s) = Home.inFlight s
  /\ Home.intervalRef (Home.captureAndDetect c env s) = Home.intervalRef s
  /\ Home.videoRef (Home.captureAndDetect c env s) = Home.videoRef s
  /\ Home.isCameraOnRef (Home.captureAndDetect c env s) = Home.isCameraOnRef s
  /\ Home.liveTracks (Home.captureAndDetect c env s) = Home.liveTracks s.
Proof.
  unfold Home.captureAndDetect.
  destruct (Home.videoRef s) as [video|] eqn:Ev; [|now auto].
  destruct (Home.canvasRef s) as [canvas|]; [|now auto].
  destruct (negb (Home.isCameraOnRef s) || paused video || ended video); [now auto|].
  destruct (negb (contextAvailable env)); [now cbn; auto|].
  destruct (negb (drawSucceeds env)); now cbn; auto.
Qed.

Lemma driver_captureAndDetect_frame s env :
  DriverView.view (DriverView.captureAndDetect env s) = DriverView.view s
  /\ DriverView.inFlight (DriverView.captureAndDetect env s) = DriverView.inFlight s
  /\ DriverView.intervalRef (DriverView.captureAndDetect env s) = DriverView.intervalRef s
  /\ DriverView.videoRef (DriverView.captureAndDetect env s) = DriverView.videoRef s
  /\ DriverView.isCameraOnRef (DriverView.captureAndDetect env s)
     = DriverView.isCameraOnRef s
  /\ DriverView.liveTracks (DriverView.captureAndDetect env s) = DriverView.liveTracks s.
Proof.
  unfold DriverView.captureAndDetect.
  destruct (DriverView.videoRef s) as [video|] eqn:Ev; [|now auto].
  destruct (DriverView.canvasRef s) as [canvas|]; [|now auto].
  destruct (negb (DriverView.isCameraOnRef s) || paused video || ended video); [now auto|].
  destruct (negb (contextAvailable env)); [now cbn; auto|].
  destruct (negb (drawSucceeds env)); now cbn; auto.
Qed.

Lemma home_stopCamera_inFlight s :
  Home.inFlight (Home.stopCamera s) = Home.inFlight s.
Proof.
  unfold Home.stopCamera, Home.stopDetectionLoop.
  destruct (Home.intervalRef s); cbn;
    destruct (Home.videoRef s) as [v|]; cbn; try reflexivity;
    destruct (srcObject v); reflexivity.
Qed.

Lemma driver_stopCamera_inFlight s :
  DriverView.inFlight (DriverView.stopCamera s) = DriverView.inFlight s.
Proof.
  unfold DriverView.stopCamera, DriverView.stopDetectionLoop.
  destruct (DriverView.intervalRef s); cbn;
    destruct (DriverView.videoRef s) as [v|]; cbn; try reflexivity;
    destruct (srcObject v); reflexivity.
Qed.

Lemma take_nth_of_nth_error {A} i (l : list A) a :
  nth_error l i = Some a -> take_nth i l = Some (a, firstn i l ++ skipn (S i) l).
Proof. unfold take_nth. now intros ->. Qed.

Lemma keepIfSame_value msg prev : DriverView.keepIfSame msg prev = Some msg.
Proof.
  unfold DriverView.keepIfSame. destruct prev as [p|]; [|reflexivity].
  destruct (String.eqb p msg) eqn:E; [|reflexivity].
  apply String.eqb_eq in E. now subst.
Qed.

(** ** C2: a response that arrives after stop *)




(** ** C4: a failed detection cycle *)

(** In the driver view a failed cycle publishes the message computed from
    what was caught, clears the result, resets the detecting indicator and
    leaves the timer, the camera and the pending work as they were. *)
Lemma driver_failed_cycle s err :
  let s' := DriverView.onSettled (DriverView.Rejected err) s in
  DriverView.error (DriverView.view s') = Some (DriverView.errorMsg err)
  /\ DriverView.detectionResult (DriverView.view s') = None
  /\ DriverView.isDetecting (DriverView.view s') = false
  /\ DriverView.isCameraOn (DriverView.view s') = DriverView.isCameraOn (DriverView.view s)
  /\ DriverView.intervalRef s' = DriverView.intervalRef s
  /\ DriverView.videoRef s' = DriverView.videoRef s
  /\ DriverView.isCameraOnRef s' = DriverView.isCameraOnRef s.
Proof. cbn. rewrite keepIfSame_value. repeat split. Qed.

Example driver_error_messages :
  DriverView.errorMsg timeoutError = "Connection timeout."%string
  /\ DriverView.errorMsg (serverError 500) = "Server error: 500"%string
  /\ DriverView.errorMsg transportError = "No server response."%string
  /\ DriverView.errorMsg OtherError = "System error."%string.
Proof. repeat split. Qed.

(** In the developer view the [catch] clears the result and the histogram
    but never calls [setError]: the error is as it was before the cycle. *)
Lemma home_failed_cycle s err :
  let s' := Home.onSettled (Home.Rejected err) s in
  Home.error (Home.view s') = Home.error (Home.view s)
  /\ Home.detectionResult (Home.view s') = None
  /\ Home.histogramData (Home.view s') = []
  /\ Home.isDetecting (Home.view s') = false
  /\ Home.intervalRef s' = Home.intervalRef s.
Proof. cbn. repeat split. Qed.

Lemma home_handleMetadataLoaded_error c env s :
  Home.error (Home.view (Home.handleMetadataLoaded c env s)) = Home.error (Home.view s).
Proof.
  unfold Home.handleMetadataLoaded, Home.startDetectionLoop.
  cbn [Home.view Home.set_intervalRef].
  destruct (home_captureAndDetect_frame
              (Home.stopDetectionLoop
                 match Home.videoRef (Home.upd_view (Home.setIsLoading false) s) with
                 | Some v =>
                     Home.set_videoRef (Some (play v))
                       (Home.upd_view (Home.setIsLoading false) s)
                 | None => Home.upd_view (Home.setIsLoading false) s
                 end) c env) as [-> _].
  unfold Home.stopDetectionLoop. cbn. by_cases.
Qed.

Lemma home_dispatch_error s e :
  Home.error (Home.view s) = None -> Home.error (Home.view (Home.dispatch s e)) = None.
Proof.
  intros H. destruct e; cbn [Home.dispatch].
  - reflexivity.
  - reflexivity.
  - destruct (take_nth i (Home.acquiring s)) as [[c rest]|]; [|exact H].
    unfold Home.startCamera_acquired. cbn. by_cases.
  - destruct (take_nth i (Home.acquiring s)) as [[c rest]|]; [|exact H]. exact H.
  - destruct (Home.videoRef s) as [v|]; [|exact H].
    assert (G : Home.error (Home.view
                  (Home.set_metadataListeners []
                     (Home.set_videoRef (Some (set_dimensions w h v)) s))) = None)
      by exact H.
    revert G.
    generalize (Home.set_metadataListeners []
                  (Home.set_videoRef (Some (set_dimensions w h v)) s)).
    generalize (Home.metadataListeners
                  (Home.set_videoRef (Some (set_dimensions w h v)) s)).
    intros ls. induction ls as [|c ls IH]; intros s0 G; [exact G|].
    cbn [fold_left]. apply IH. now rewrite home_handleMetadataLoaded_error.
  - destruct (Home.intervalRef s) as [t|]; [|exact H].
    destruct (home_captureAndDetect_frame s (Home.callback t) env) as [-> _]. exact H.
  - destruct (take_nth i (Home.encoding s)) as [[c rest]|]; [|exact H].
    destruct blob; exact H.
  - destruct (take_nth i (Home.inFlight s)) as [[c rest]|]; [|exact H].
    destruct o; [|exact H]. unfold Home.onSettled. by_cases.
  - exact H.
  - exact H.
Qed.

(** The developer view has an error banner, and clears the error on every
    success, on start and on stop, but no handler ever sets it: whatever
    happens after mounting, the error it shows is none. *)
Lemma home_error_never_published es :
  Home.error (Home.view (Home.run Home.mounted es)) = None.
Proof.
  unfold Home.run.
  assert (H : Home.error (Home.view Home.mounted) = None) by reflexivity.
  revert H. generalize Home.mounted.
  induction es as [|e es IH]; intros s H; [exact H|].
  cbn [fold_left]. apply IH. unfold Home.step. cbn.
  now apply home_dispatch_error.
Qed.

(** C4 on the input where the code departs from it: the first submission of
    a developer-view session times out. The result is cleared and the timer
    is untouched, but no error is published (the same timeout in the driver
    view publishes "Connection timeout."). *)
Theorem home_timeout_publishes_no_error :
  let before := Home.run Home.mounted home_session in
  let after := Home.run Home.mounted home_timeout in
  let after' := DriverView.run DriverView.mounted driver_timeout in
  Home.error (Home.view after) = None
  /\ Home.detectionResult (Home.view after) = None
  /\ Home.intervalRef after = Home.intervalRef before
  /\ DriverView.error (DriverView.view after') = Some "Connection timeout."%string
  /\ DriverView.detectionResult (DriverView.view after') = None.
Proof. cbv zeta. repeat split. Qed.

(** ** C8: starting the loop *)

(** The metadata listener runs one cycle at once and then installs the
    timer: the cycle is the one [captureAndDetect] performs on the state in
    which loading has ended, the video plays and any earlier timer is
    cleared. *)
Lemma home_start_runs_immediate_cycle c env s :
  exists s0,
    Home.isLoading (Home.view s0) = false
    /\ Home.intervalRef s0 = None
    /\ Home.handleMetadataLoaded c env s
       = Home.set_intervalRef
           (Some {| Home.period := Home.DETECTION_INTERVAL_MS; Home.callback := c |})
           (Home.captureAndDetect c env s0).
Proof.
  unfold Home.handleMetadataLoaded, Home.startDetectionLoop.
  eexists. split; [|split; [|reflexivity]].
  - unfold Home.stopDetectionLoop. cbn. by_cases.
  - unfold Home.stopDetectionLoop. cbn. by_cases.
Qed.

Lemma driver_start_runs_immediate_cycle env s :
  exists s0,
    DriverView.isLoading (DriverView.view s0) = false
    /\ DriverView.intervalRef s0 = None
    /\ DriverView.handleMetadataLoaded env s
       = DriverView.set_intervalRef (Some DriverView.DETECTION_INTERVAL_MS)
           (DriverView.captureAndDetect env s0).
Proof.
  unfold DriverView.handleMetadataLoaded, DriverView.startDetectionLoop.
  eexists. split; [|split; [|reflexivity]].
  - unfold DriverView.stopDetectionLoop. cbn. by_cases.
  - unfold DriverView.stopDetectionLoop. cbn. by_cases.
Qed.

(** On a successful start of either view the immediate cycle has run (its
    frame is with the encoder) and the timer is installed with the view's
    period, which lies between 1000 and 1500 ms. *)
Lemma successful_start_is_running :
  let h := Home.run Home.mounted
             [Home.StartCamera; Home.UserMediaResolved 0 rearCamera;
              Home.LoadedMetadata 640 480 working] in
  let d := DriverView.run DriverView.mounted
             [DriverView.StartCamera; DriverView.UserMediaResolved rearCamera;
              DriverView.LoadedMetadata 640 480 working] in
  (Home.isCameraOn (Home.view h) = true
   /\ Home.isLoading (Home.view h) = false
   /\ Home.encoding h = [defaultClosure]
   /\ Home.intervalRef h
      = Some {| Home.period := Home.DETECTION_INTERVAL_MS; Home.callback := defaultClosure |})
  /\ (DriverView.isCameraOn (DriverView.view d) = true
      /\ DriverView.isLoading (DriverView.view d) = false
      /\ DriverView.encoding d = 1
      /\ DriverView.intervalRef d = Some DriverView.DETECTION_INTERVAL_MS)
  /\ (1000 <= Home.DETECTION_INTERVAL_MS <= 1500)%Z
  /\ (1000 <= DriverView.DETECTION_INTERVAL_MS <= 1500)%Z.
Proof. cbv zeta. repeat split; try reflexivity; discriminate. Qed.

(** When the camera is refused the driver view returns to idle and tells the
    user so. *)
Lemma driver_acquisition_failure s :
  let s' := DriverView.startCamera_failed s in
  DriverView.error (DriverView.view s') = Some DriverView.cameraUnavailable
  /\ DriverView.isLoading (DriverView.view s') = false
  /\ DriverView.isCameraOn (DriverView.view s') = false.
Proof. cbn. repeat split. Qed.

(** C8 on the input where the code departs from it: the camera is refused in
    the developer view. The view returns to idle (camera off, not loading)
    but reports nothing to the user: its error is none, where the driver
    view shows that the camera is unavailable. *)
Theorem home_camera_refusal_unreported :
  let h := Home.run Home.mounted home_denied in
  let d := DriverView.run DriverView.mounted driver_denied in
  Home.isCameraOn (Home.view h) = false
  /\ Home.isLoading (Home.view h) = false
  /\ Home.intervalRef h = None
  /\ Home.error (Home.view h) = None
  /\ DriverView.error (DriverView.view d)
     = Some "Camera unavailable. Check permissions."%string.
Proof. cbv zeta. repeat split. Qed.

(** ** C5: stop *)



Lemma stopTracks_In stream : forall live t,
  In t (stopTracks stream live) <-> In t live /\ ~ In t stream.
Proof.
  unfold stopTracks. induction stream as [|a stream IH]; intros live t; cbn [fold_left].
  - cbn. tauto.
  - rewrite IH. split.
    + intros [Hin Hn]. apply in_remove in Hin as [Hin Hne].
      split; [exact Hin|]. cbn. intros [E|E]; [now subst | contradiction].
    + intros [Hin Hn]. cbn in Hn. split; [|tauto].
      apply in_in_remove; [|exact Hin]. intros ->. tauto.
Qed.



Lemma home_stopCamera_interval s : Home.intervalRef (Home.stopCamera s) = None.
Proof. unfold Home.stopCamera, Home.stopDetectionLoop. cbn. by_cases. Qed.

Lemma driver_stopCamera_interval s :
  DriverView.intervalRef (DriverView.stopCamera s) = None.
Proof. unfold DriverView.stopCamera, DriverView.stopDetectionLoop. cbn. by_cases. Qed.





Example stop_releases_the_camera :
  Home.liveTracks (Home.run Home.mounted home_session) = rearCamera
  /\ Home.liveTracks (Home.run Home.mounted (home_session ++ [Home.StopCamera])) = [].
Proof. split; reflexivity. Qed.

(** ** C6: a frame that cannot be rasterized or encoded *)

Lemma matchVideo_idempotent canvas video :
  matchVideo (matchVideo canvas video) video = matchVideo canvas video.
Proof.
  unfold matchVideo at 2 3.
  destruct (negb (width canvas =? videoWidth video)%N
            || negb (height canvas =? videoHeight video)%N) eqn:E.
  - unfold matchVideo. cbn. now rewrite !N.eqb_refl.
  - unfold matchVideo. now rewrite E.
Qed.

Lemma home_cycle_after_resize s c env canvas video :
  Home.videoRef s = Some video -> Home.canvasRef s = Some canvas ->
  negb (Home.isCameraOnRef s) || paused video || ended video = false ->
  Home.captureAndDetect c env (Home.set_canvasRef (Some (matchVideo canvas video)) s)
  = Home.captureAndDetect c env s.
Proof.
  intros Hv Hc Hg. unfold Home.captureAndDetect. cbn. rewrite Hv, Hc, Hg.
  rewrite matchVideo_idempotent. reflexivity.
Qed.

Lemma driver_cycle_after_resize s env canvas video :
  DriverView.videoRef s = Some video -> DriverView.canvasRef s = Some canvas ->
  negb (DriverView.isCameraOnRef s) || paused video || ended video = false ->
  DriverView.captureAndDetect env
    (DriverView.set_canvasRef (Some (matchVideo canvas video)) s)
  = DriverView.captureAndDetect env s.
Proof.
  intros Hv Hc Hg. unfold DriverView.captureAndDetect. cbn. rewrite Hv, Hc, Hg.
  rewrite matchVideo_idempotent. reflexivity.
Qed.

(** C6: in both views, a cycle in which no drawing context is available or
    [drawImage] throws, and an encode that delivers a null blob, submit
    nothing, leave no encode pending, publish nothing (the view, and so its
    error, is unchanged) and leave the timer installed; the next cycle then
    behaves exactly as it would have without the failed one. *)
Theorem failed_rasterization_is_noop
    (h : Home.State) (c : Home.Closure) (d : DriverView.State) (env next : CaptureEnv) :
  contextAvailable env = false \/ drawSucceeds env = false ->
  let h' := Home.captureAndDetect c env h in
  let d' := DriverView.captureAndDetect env d in
  (Home.inFlight h' = Home.inFlight h
   /\ Home.encoding h' = Home.encoding h
   /\ Home.view h' = Home.view h
   /\ Home.intervalRef h' = Home.intervalRef h
   /\ Home.captureAndDetect c next h' = Home.captureAndDetect c next h
   /\ Home.toBlobCallback c None h = h)
  /\ (DriverView.inFlight d' = DriverView.inFlight d
      /\ DriverView.encoding d' = DriverView.encoding d
      /\ DriverView.view d' = DriverView.view d
      /\ DriverView.intervalRef d' = DriverView.intervalRef d
      /\ DriverView.captureAndDetect next d' = DriverView.captureAndDetect next d
      /\ DriverView.toBlobCallback None d = d).
Proof.
  intros Henv. cbv zeta. split.
  - destruct (home_captureAndDetect_frame h c env) as (Hv & Hf & Hi & _).
    repeat split; try assumption.
    + unfold Home.captureAndDetect.
      destruct (Home.videoRef h) as [video|]; [|reflexivity].
      destruct (Home.canvasRef h) as [canvas|]; [|reflexivity].
      destruct (negb (Home.isCameraOnRef h) || paused video || ended video); [reflexivity|].
      destruct Henv as [-> | ->]; cbn; [reflexivity|].
      destruct (contextAvailable env); reflexivity.
    + unfold Home.captureAndDetect at 2.
      destruct (Home.videoRef h) as [video|] eqn:Ev; [|reflexivity].
      destruct (Home.canvasRef h) as [canvas|] eqn:Ec; [|reflexivity].
      destruct (negb (Home.isCameraOnRef h) || paused video || ended video) eqn:Eg;
        [reflexivity|].
      destruct Henv as [-> | ->]; cbn [negb].
      * now apply home_cycle_after_resize.
      * destruct (negb (contextAvailable env)); now apply home_cycle_after_resize.
  - destruct (driver_captureAndDetect_frame d env) as (Hv & Hf & Hi & _).
    repeat split; try assumption.
    + unfold DriverView.captureAndDetect.
      destruct (DriverView.videoRef d) as [video|]; [|reflexivity].
      destruct (DriverView.canvasRef d) as [canvas|]; [|reflexivity].
      destruct (negb (DriverView.isCameraOnRef d) || paused video || ended video);
        [reflexivity|].
      destruct Henv as [-> | ->]; cbn; [reflexivity|].
      destruct (contextAvailable env); reflexivity.
    + unfold DriverView.captureAndDetect at 2.
      destruct (DriverView.videoRef d) as [video|] eqn:Ev; [|reflexivity].
      destruct (DriverView.canvasRef d) as [canvas|] eqn:Ec; [|reflexivity].
      destruct (negb (DriverView.isCameraOnRef d) || paused video || ended video) eqn:Eg;
        [reflexivity|].
      destruct Henv as [-> | ->]; cbn [negb].
      * now apply driver_cycle_after_resize.
      * destruct (negb (contextAvailable env)); now apply driver_cycle_after_resize.
Qed.

Lemma failed_rasterization_is_noop_witness :
  let h := Home.run Home.mounted home_session in
  let d := DriverView.run DriverView.mounted driver_session in
  Home.inFlight (Home.captureAndDetect defaultClosure noContext h) = Home.inFlight h
  /\ Home.view (Home.captureAndDetect defaultClosure noContext h) = Home.view h
  /\ DriverView.inFlight (DriverView.captureAndDetect drawThrows d) = DriverView.inFlight d
  /\ DriverView.view (DriverView.captureAndDetect drawThrows d) = DriverView.view d.
Proof.
  cbv zeta.
  destruct (failed_rasterization_is_noop
              (Home.run Home.mounted home_session) defaultClosure
              (DriverView.run DriverView.mounted driver_session)
              noContext working (or_introl eq_refl)) as [(H1 & _ & H2 & _) _].
  destruct (failed_rasterization_is_noop
              (Home.run Home.mounted home_session) defaultClosure
              (DriverView.run DriverView.mounted driver_session)
              drawThrows working (or_intror eq_refl)) as [_ (H3 & _ & H4 & _)].
  repeat split; assumption.
Defined.

(** ** C9: publishing the same error again *)

(** C9: in the driver view, when the message computed for a failure equals
    the published one, the updater answers the previous value and the error
    state is unchanged; and once a failure has been published, a further
    cycle that fails in the same way ends in the same view as the first. *)
Theorem driver_error_publication_idempotent
    (s : DriverView.State) (err : CaughtError) (blob : Blob) :
  DriverView.error (DriverView.view s) = Some (DriverView.errorMsg err) ->
  let s1 := DriverView.onSettled (DriverView.Rejected err) s in
  let s2 := DriverView.onSettled (DriverView.Rejected err)
              (DriverView.toBlobCallback (Some blob) s1) in
  DriverView.keepIfSame (DriverView.errorMsg err) (DriverView.error (DriverView.view s))
  = DriverView.error (DriverView.view s)
  /\ DriverView.error (DriverView.view s1) = DriverView.error (DriverView.view s)
  /\ DriverView.view s2 = DriverView.view s1.
Proof.
  intros H. cbv zeta. cbn. rewrite !keepIfSame_value. rewrite H. repeat split.
  unfold DriverView.setIsDetecting, DriverView.setDetectionResult, DriverView.setError.
  cbn. now rewrite !keepIfSame_value.
Qed.

Lemma driver_error_publication_idempotent_witness :
  let s := DriverView.run DriverView.mounted driver_timeout in
  DriverView.error (DriverView.view s) = Some "Connection timeout."%string
  /\ DriverView.error
       (DriverView.view (DriverView.onSettled (DriverView.Rejected timeoutError) s))
     = DriverView.error (DriverView.view s).
Proof.
  cbv zeta. split; [reflexivity|].
  exact (proj1 (proj2 (driver_error_publication_idempotent
                         (DriverView.run DriverView.mounted driver_timeout)
                         timeoutError jpeg eq_refl))).
Defined.

(** ** C10: start and the outputs of the earlier session *)






(** ** C7: what a submission carries *)

Section HomeInvariant.

Variable P : Home.Closure -> Prop.
Variable R : Request -> Prop.
Hypothesis built : forall c b, P c -> R (Home.detectRequest c b).

Ltac split_inv :=
  unfold home_inv; cbn;
  repeat match goal with
         | |- _ /\ _ => split
         | |- Forall _ (_ ++ _) => apply Forall_app
         | |- Forall _ [_] => constructor
         | |- Forall _ [] => constructor
         end;
  try assumption; try discriminate.

Lemma home_inv_captureAndDetect c env s :
  P c -> home_inv P R s -> home_inv P R (Home.captureAndDetect c env s).
Proof.
  intros Hc Hinv. pose proof Hinv as (H1 & H2 & H3 & H4 & H5 & H6).
  unfold Home.captureAndDetect.
  destruct (Home.videoRef s) as [video|]; [|exact Hinv].
  destruct (Home.canvasRef s) as [canvas|]; [|exact Hinv].
  destruct (negb (Home.isCameraOnRef s) || paused video || ended video); [exact Hinv|].
  destruct (negb (contextAvailable env)); [split_inv|].
  destruct (negb (drawSucceeds env)); split_inv.
Qed.

Lemma home_inv_handleMetadataLoaded c env s :
  P c -> home_inv P R s -> home_inv P R (Home.handleMetadataLoaded c env s).
Proof.
  intros Hc (H1 & H2 & H3 & H4 & H5 & H6).
  unfold Home.handleMetadataLoaded, Home.startDetectionLoop.
  match goal with
  | |- home_inv _ _ (Home.set_intervalRef _ (Home.captureAndDetect _ _ ?s0)) =>
      assert (H0 : home_inv P R s0)
  end.
  { unfold Home.stopDetectionLoop. cbn.
    destruct (Home.videoRef s); cbn; destruct (Home.intervalRef s) eqn:E; split_inv;
      intros t' Ht'; apply H5; congruence. }
  apply (home_inv_captureAndDetect c env) in H0; [|exact Hc].
  destruct H0 as (G1 & G2 & G3 & G4 & G5 & G6).
  split_inv. intros t [= <-]. exact Hc.
Qed.

Lemma home_inv_listeners env ls : forall s,
  Forall P ls -> home_inv P R s ->
  home_inv P R (fold_left (fun acc c => Home.handleMetadataLoaded c env acc) ls s).
Proof.
  induction ls as [|c ls IH]; intros s Hls Hinv; [exact Hinv|].
  inversion Hls; subst. cbn [fold_left].
  apply IH; [assumption|]. now apply home_inv_handleMetadataLoaded.
Qed.

Lemma home_inv_dispatch s e :
  isSlider e = false \/ (forall c, P c) ->
  home_inv P R s -> home_inv P R (Home.dispatch s e).
Proof.
  intros He Hinv. pose proof Hinv as (H1 & H2 & H3 & H4 & H5 & H6).
  destruct e; cbn [Home.dispatch].
  - split_inv.
  - unfold Home.stopCamera, Home.stopDetectionLoop.
    destruct (Home.intervalRef s) eqn:Ei; cbn;
      destruct (Home.videoRef s) as [v|]; cbn; try destruct (srcObject v);
      split_inv; try (intros t' Ht'; apply H5; cbn in Ht'; congruence).
  - destruct (take_nth i (Home.acquiring s)) as [[c rest]|] eqn:E; [|exact Hinv].
    destruct (take_nth_Forall P _ _ _ _ E H2) as [Hc Hrest].
    unfold Home.startCamera_acquired. cbn.
    destruct (Home.videoRef s); split_inv.
  - destruct (take_nth i (Home.acquiring s)) as [[c rest]|] eqn:E; [|exact Hinv].
    destruct (take_nth_Forall P _ _ _ _ E H2) as [Hc Hrest]. split_inv.
  - destruct (Home.videoRef s) as [v|]; [|exact Hinv].
    apply home_inv_listeners; [exact H3|]. split_inv.
  - destruct (Home.intervalRef s) as [t|] eqn:Ei; [|exact Hinv].
    apply home_inv_captureAndDetect; [now apply H5 | exact Hinv].
  - destruct (take_nth i (Home.encoding s)) as [[c rest]|] eqn:E; [|exact Hinv].
    destruct (take_nth_Forall P _ _ _ _ E H4) as [Hc Hrest].
    destruct blob as [b|]; split_inv. now apply built.
  - destruct (take_nth i (Home.inFlight s)) as [[r rest]|] eqn:E; [|exact Hinv].
    destruct (take_nth_Forall R _ _ _ _ E H6) as [Hr Hrest].
    unfold Home.onSettled. destruct o as [data|err]; cbn.
    + destruct (Home.histogram data) as [[|q qs]|]; split_inv.
    + split_inv.
  - destruct He as [He|He]; [discriminate|]. split_inv. apply He.
  - destruct He as [He|He]; [discriminate|]. split_inv. apply He.
Qed.

Lemma home_inv_run es : forall s,
  forallb (fun e => negb (isSlider e)) es = true \/ (forall c, P c) ->
  home_inv P R s -> home_inv P R (Home.run s es).
Proof.
  unfold Home.run. induction es as [|e es IH]; intros s He Hinv; [exact Hinv|].
  cbn [fold_left]. apply IH.
  - destruct He as [He|He]; [|now right].
    cbn in He. apply andb_true_iff in He. now left.
  - assert (Hd : home_inv P R (Home.dispatch s e)).
    { apply home_inv_dispatch; [|exact Hinv].
      destruct He as [He|He]; [|now right].
      cbn in He. apply andb_true_iff in He as [He _].
      left. now destruct (isSlider e). }
    destruct Hd as (G1 & G2 & G3 & G4 & G5 & G6).
    unfold Home.step. split_inv.
Qed.

End HomeInvariant.

Lemma driver_handleMetadataLoaded_inFlight env s :
  DriverView.inFlight (DriverView.handleMetadataLoaded env s) = DriverView.inFlight s.
Proof.
  unfold DriverView.handleMetadataLoaded, DriverView.startDetectionLoop.
  cbn [DriverView.inFlight DriverView.set_intervalRef].
  match goal with
  | |- DriverView.inFlight (DriverView.captureAndDetect ?e ?x) = _ =>
      destruct (driver_captureAndDetect_frame x e) as (_ & -> & _)
  end.
  unfold DriverView.stopDetectionLoop. cbn. by_cases.
Qed.

Lemma driver_listeners_inFlight env n s :
  DriverView.inFlight (Nat.iter n (DriverView.handleMetadataLoaded env) s)
  = DriverView.inFlight s.
Proof.
  induction n as [|n IH]; [reflexivity|].
  rewrite Nat.iter_succ, driver_handleMetadataLoaded_inFlight. exact IH.
Qed.

Lemma driver_dispatch_inFlight (R : Request -> Prop) s e :
  (forall b, R (DriverView.detectRequest b)) ->
  Forall R (DriverView.inFlight s) -> Forall R (DriverView.inFlight (DriverView.dispatch s e)).
Proof.
  intros Hb H. destruct e; cbn [DriverView.dispatch].
  - exact H.
  - now rewrite driver_stopCamera_inFlight.
  - destruct (DriverView.acquiring s); [exact H|].
    unfold DriverView.startCamera_acquired. cbn. by_cases.
  - destruct (DriverView.acquiring s); exact H.
  - destruct (DriverView.videoRef s) as [v|]; [|exact H].
    now rewrite driver_listeners_inFlight.
  - destruct (DriverView.intervalRef s); [|exact H].
    now destruct (driver_captureAndDetect_frame s env) as (_ & -> & _).
  - destruct (DriverView.encoding s); [exact H|].
    destruct blob as [b|]; cbn; [|exact H].
    apply Forall_app. split; [exact H|]. constructor; [apply Hb | constructor].
  - destruct (take_nth i (DriverView.inFlight s)) as [[r rest]|] eqn:E; [|exact H].
    destruct (take_nth_Forall R _ _ _ _ E H) as [_ Hrest].
    destruct o; exact Hrest.
Qed.

Lemma driver_run_inFlight (R : Request -> Prop) es : forall s,
  (forall b, R (DriverView.detectRequest b)) ->
  Forall R (DriverView.inFlight s) -> Forall R (DriverView.inFlight (DriverView.run s es)).
Proof.
  unfold DriverView.run. induction es as [|e es IH]; intros s Hb H; [exact H|].
  cbn [fold_left]. apply IH; [exact Hb|].
  unfold DriverView.step. cbn. now apply driver_dispatch_inFlight.
Qed.

(** C7, as stated, fails in the driver view: the request of its first
    submission is posted to the bare endpoint and has no search parameter,
    so neither [laplacian_threshold] nor [std_dev_threshold]. *)
Lemma driver_submission_has_no_thresholds :
  let d := DriverView.run DriverView.mounted driver_session in
  exists r, DriverView.inFlight d = [r]
            /\ file r = jpeg /\ searchParams r = [] /\ ~ carriesThresholds r.
Proof.
  cbv zeta. eexists. split; [reflexivity|]. repeat split.
  intros (lt & st & H). discriminate H.
Qed.

(** C7, amended: a developer-view submission carries the encoded image and
    the two parameters [laplacian_threshold] and [std_dev_threshold], in
    every state the view can reach; as long as no slider has been moved
    their values are 250 and 40. A driver-view submission carries the
    encoded image and no parameter at all. *)
Theorem submissions_carry
    (hs : list Home.Event) (ds : list DriverView.Event)
    (c : Home.Closure) (blob : Blob) :
  forallb (fun e => negb (isSlider e)) hs = true ->
  (file (Home.detectRequest c blob) = blob
   /\ searchParams (Home.detectRequest c blob)
      = thresholdParams (Home.capturedLaplacian c) (Home.capturedStdDev c)
   /\ Forall carriesDefaults (Home.inFlight (Home.run Home.mounted hs))
   /\ (forall es, Forall carriesThresholds (Home.inFlight (Home.run Home.mounted es)))
   /\ Home.DEFAULT_LAPLACIAN_THRESHOLD = 250%Q
   /\ Home.DEFAULT_HIST_STD_DEV_THRESHOLD = 40%Q)
  /\ (file (DriverView.detectRequest blob) = blob
      /\ Forall carriesNoParams (DriverView.inFlight (DriverView.run DriverView.mounted ds))).
Proof.
  intros Hs. split; [|split; [reflexivity|]].
  - repeat split.
    + apply (home_inv_run (eq defaultClosure) carriesDefaults).
      * intros c0 b <-. reflexivity.
      * now left.
      * unfold home_inv. cbn. repeat split; try constructor; discriminate.
    + intros es. apply (home_inv_run (fun _ => True) carriesThresholds).
      * intros c0 b _. now eexists _, _.
      * now right.
      * unfold home_inv. cbn. repeat split; try constructor; discriminate.
  - apply driver_run_inFlight; [reflexivity | constructor].
Qed.

Lemma submissions_carry_witness :
  Home.inFlight (Home.run Home.mounted home_slow_service)
  = [Home.detectRequest defaultClosure jpeg; Home.detectRequest defaultClosure jpeg]
  /\ Forall carriesDefaults (Home.inFlight (Home.run Home.mounted home_slow_service))
  /\ Forall carriesNoParams
       (DriverView.inFlight (DriverView.run DriverView.mounted driver_slow_service)).
Proof.
  split; [reflexivity|].
  destruct (submissions_carry home_slow_service driver_slow_service defaultClosure jpeg
              eq_refl) as [(_ & _ & H1 & _) (_ & H2)].
  split; [exact H1 | exact H2].
Defined.

(** ** C3: the classification policy of the detection service *)

Module DetectionFacts.

Import DetectionService.
Local Open Scope R_scope.

Lemma sumR_zeros l : Forall (eq 0) l -> sumR l = 0.
Proof.
  unfold sumR. induction 1 as [|x l Hx _ IH]; cbn [fold_right]; [reflexivity|].
  subst. rewrite IH. lra.
Qed.

Lemma variance_zeros l : Forall (eq 0) l -> variance l = 0.
Proof.
  intros H. unfold variance, mean. rewrite (sumR_zeros l H).
  rewrite sumR_zeros; [unfold Rdiv; ring|].
  apply Forall_map. eapply Forall_impl; [|exact H].
  intros x <-. unfold Rdiv. ring.
Qed.

Lemma nth_const {A} (c d : A) l i :
  Forall (eq c) l -> (i < List.length l)%nat -> nth i l d = c.
Proof.
  intros H Hi. rewrite Forall_forall in H. symmetry. apply H. now apply nth_In.
Qed.

Lemma count_occ_const (c b : Z) l :
  Forall (eq c) l ->
  count_occ Z.eq_dec l b = if Z.eq_dec c b then List.length l else 0%nat.
Proof.
  induction 1 as [|x l Hx _ IH]; cbn [count_occ List.length].
  - now destruct (Z.eq_dec c b).
  - subst x. rewrite IH. now destruct (Z.eq_dec c b).
Qed.

Lemma weighted_single (f : nat -> R) (c N : nat) : forall len k,
  weighted f k (map (fun b => if Nat.eqb b c then N else 0%nat) (seq k len))
  = if ((k <=? c) && (c <? k + len))%nat then INR N * f c else 0.
Proof.
  induction len as [|len IH]; intros k.
  - cbn [seq map weighted].
    destruct (Nat.leb_spec k c), (Nat.ltb_spec c (k + 0)); cbn; try reflexivity; lia.
  - cbn [seq map weighted]. rewrite IH.
    destruct (Nat.eqb_spec k c) as [->|Hne].
    + destruct (Nat.leb_spec (S c) c); [lia|].
      destruct (Nat.leb_spec c c); [|lia].
      destruct (Nat.ltb_spec c (c + S len)); [|lia]. cbn. lra.
    + destruct (Nat.leb_spec (S k) c), (Nat.leb_spec k c); try lia;
        destruct (Nat.ltb_spec c (S k + len)), (Nat.ltb_spec c (k + S len));
        try lia; cbn; lra.
Qed.

Section Uniform.

Variable luma : Pixel -> Z.
Variable border : nat -> Z -> nat.
Hypothesis border_inside : insideImage border.

Variable f : Frame.
Variable p : Pixel.
Hypothesis well_formed : wellFormed f.
Hypothesis all_p : Forall (eq p) (pixels f).

Let g := toGrayscale luma f.
Let c := saturate (luma p).

Lemma uniform_intensities : Forall (eq c) (intensities g).
Proof.
  subst g c. cbn. apply Forall_map. eapply Forall_impl; [|exact all_p].
  now intros q <-.
Qed.

Lemma uniform_sample y x :
  (0 < grayHeight g)%nat -> (0 < grayWidth g)%nat -> sample border g y x = c.
Proof.
  intros Hh Hw. unfold sample, grayAt.
  apply nth_const; [exact uniform_intensities|].
  pose proof (border_inside (grayHeight g) y Hh) as Hy.
  pose proof (border_inside (grayWidth g) x Hw) as Hx.
  subst g. cbn in *. rewrite length_map, well_formed. nia.
Qed.

Lemma uniform_laplacian : Forall (eq 0%Z) (laplacian border g).
Proof.
  unfold laplacian. apply Forall_flat_map. apply Forall_forall.
  intros y Hy. apply Forall_map. apply Forall_forall. intros x Hx.
  apply in_seq in Hy, Hx. unfold laplacianAt.
  rewrite !uniform_sample by lia. lia.
Qed.

Lemma uniform_laplacianVariance : laplacianVarianceOf border g = 0.
Proof.
  unfold laplacianVarianceOf. apply variance_zeros.
  apply Forall_map. eapply Forall_impl; [|exact uniform_laplacian].
  now intros z <-.
Qed.

Lemma saturate_range z : (0 <= saturate z <= 255)%Z.
Proof. unfold saturate. lia. Qed.

Lemma uniform_histogram :
  histogramOf g
  = map (fun b => if Nat.eqb b (Z.to_nat c) then List.length (intensities g) else 0%nat)
        (seq 0 256).
Proof.
  unfold histogramOf. apply map_ext. intros b.
  rewrite (count_occ_const c _ _ uniform_intensities).
  pose proof (saturate_range (luma p)) as Hc. fold c in Hc.
  destruct (Z.eq_dec c (Z.of_nat b)) as [E|E], (Nat.eqb_spec b (Z.to_nat c)) as [E'|E'];
    try reflexivity; lia.
Qed.

Lemma uniform_histogramStdDev : histogramStdDevOf g = 0.
Proof.
  unfold histogramStdDevOf. rewrite uniform_histogram.
  pose proof (saturate_range (luma p)) as Hc. fold c in Hc.
  assert (Hin : ((0 <=? Z.to_nat c) && (Z.to_nat c <? 0 + 256))%nat = true).
  { apply andb_true_iff. split; [apply Nat.leb_le | apply Nat.ltb_lt]; lia. }
  set (N := List.length (intensities g)).
  unfold histVariance, histMean, histTotal.
  rewrite !weighted_single, Hin.
  destruct (Nat.eq_dec N 0) as [->|HN].
  - cbn [INR]. replace (0 * _ / (0 * 1)) with 0 by (unfold Rdiv; ring).
    apply sqrt_0.
  - assert (HR : INR N <> 0) by (now apply not_0_INR).
    replace (INR N * INR (Z.to_nat c) / (INR N * 1)) with (INR (Z.to_nat c))
      by (field; exact HR).
    replace (INR N * _ / (INR N * 1)) with 0 by (unfold Rdiv; ring).
    apply sqrt_0.
Qed.

End Uniform.

Lemma classify_zero lt st :
  0 < lt -> 0 < st ->
  let m := {| laplacianVariance := 0; histogramStdDev := 0 |} in
  let t := {| laplacianThreshold := lt; stdDevThreshold := st |} in
  classifyFog m t = true /\ shortfall m t = 1 /\ classifyIntensity m t = Heavy.
Proof.
  intros Hlt Hst m t.
  assert (Hs : shortfall m t = 1).
  { unfold shortfall. cbn. unfold Rdiv. rewrite !Rmult_0_l.
    unfold Rmin. destruct (Rle_dec 0 0); lra. }
  repeat split.
  - unfold classifyFog. cbn. destruct (Rlt_dec 0 lt); [|lra].
    destruct (Rlt_dec 0 st); [reflexivity | lra].
  - exact Hs.
  - unfold classifyIntensity. rewrite Hs.
    destruct (Rlt_dec 1 0); [lra|]. destruct (Rlt_dec 1 (1 / 2)); [lra | reflexivity].
Qed.

Lemma classifyFog_spec m t :
  classifyFog m t = true
  <-> laplacianVariance m < laplacianThreshold t
      /\ histogramStdDev m < stdDevThreshold t.
Proof.
  unfold classifyFog.
  destruct (Rlt_dec (laplacianVariance m) (laplacianThreshold t)) as [H1|H1];
    destruct (Rlt_dec (histogramStdDev m) (stdDevThreshold t)) as [H2|H2];
    split; intros H; try reflexivity; try discriminate H;
    try (split; assumption); destruct H; contradiction.
Qed.

(** C3: for every pixel buffer and positive thresholds, [detect] answers
    fog exactly when both metrics are below their thresholds, and the
    intensity by the shortfall: clear below 0, light from 0 to below 0.5,
    heavy from 0.5 on. In particular a well-formed uniform image has both
    metrics 0 and is classified as fog of heavy intensity, whatever the
    grayscale weights and the border rule. *)
Theorem detect_policy
    (luma : Pixel -> Z) (border : nat -> Z -> nat) (f : Frame) (lt st : R) :
  0 < lt -> 0 < st ->
  let r := detect luma border f lt st in
  let m := metrics r in
  let t := thresholdsUsed r in
  t = {| laplacianThreshold := lt; stdDevThreshold := st |}
  /\ shortfall m t = 1 - Rmin (laplacianVariance m / lt) (histogramStdDev m / st)
  /\ (fogDetected r = true <-> laplacianVariance m < lt /\ histogramStdDev m < st)
  /\ (shortfall m t < 0 -> intensity r = Clear)
  /\ (0 <= shortfall m t < 1 / 2 -> intensity r = Light)
  /\ (1 / 2 <= shortfall m t -> intensity r = Heavy)
  /\ (insideImage border -> wellFormed f -> uniform f ->
      laplacianVariance m = 0 /\ histogramStdDev m = 0
      /\ fogDetected r = true /\ intensity r = Heavy).
Proof.
  intros Hlt Hst r m t. subst r m t. cbn [detect metrics thresholdsUsed fogDetected intensity].
  split; [reflexivity|]. split; [reflexivity|].
  set (m := measure border (toGrayscale luma f)).
  set (t := {| laplacianThreshold := lt; stdDevThreshold := st |}).
  split; [|split; [|split; [|split]]].
  - exact (classifyFog_spec m t).
  - intros H. unfold classifyIntensity. destruct (Rlt_dec (shortfall m t) 0); [reflexivity|tauto].
  - intros [H1 H2]. unfold classifyIntensity.
    destruct (Rlt_dec (shortfall m t) 0); [lra|].
    destruct (Rlt_dec (shortfall m t) (1 / 2)); [reflexivity | tauto].
  - intros H. unfold classifyIntensity.
    destruct (Rlt_dec (shortfall m t) 0); [lra|].
    destruct (Rlt_dec (shortfall m t) (1 / 2)); [lra | reflexivity].
  - intros Hb Hwf [p Hp].
    assert (Hm : m = {| laplacianVariance := 0; histogramStdDev := 0 |}).
    { subst m. unfold measure.
      rewrite (uniform_laplacianVariance luma border Hb f p Hwf Hp).
      now rewrite (uniform_histogramStdDev luma f p Hp). }
    rewrite Hm. cbn [laplacianVariance histogramStdDev].
    destruct (classify_zero lt st Hlt Hst) as (H1 & _ & H3). auto.
Qed.

Lemma replicate_inside : insideImage replicate.
Proof. intros n i Hn. unfold replicate. lia. Qed.

Lemma solid_wellFormed w h p : wellFormed (solid w h p).
Proof. unfold wellFormed, solid. cbn. apply repeat_length. Qed.

Lemma solid_uniform w h p : uniform (solid w h p).
Proof.
  exists p. unfold solid. cbn. apply Forall_forall. intros q Hq.
  symmetry. now apply repeat_spec in Hq.
Qed.

(** The scenario of the specification: a solid mid-gray 640 x 480 buffer
    with thresholds 250 and 40. *)
Lemma detect_policy_witness :
  let r := detect average replicate (solid 640 480 midGray) 250 40 in
  fogDetected r = true /\ intensity r = Heavy /\ histogramStdDev (metrics r) = 0.
Proof.
  assert (H250 : 0 < 250) by lra.
  assert (H40 : 0 < 40) by lra.
  destruct (detect_policy average replicate (solid 640 480 midGray) 250 40 H250 H40)
    as (_ & _ & _ & _ & _ & _ & H).
  destruct (H replicate_inside (solid_wellFormed 640 480 midGray)
              (solid_uniform 640 480 midGray)) as (_ & H2 & H3 & H4).
  cbv zeta. auto.
Defined.

End DetectionFacts.

(** * Further properties of the two views *)

(** ** The histogram data of the developer view *)

Lemma processHistogram_nth h : forall index i,
  nth_error (Home.processHistogram index h) i
  = option_map (fun value => {| Home.bin := index + i; Home.frequency := value |})
               (nth_error h i).
Proof.
  induction h as [|value rest IH]; intros index i.
  - destruct i; reflexivity.
  - destruct i as [|i]; cbn [Home.processHistogram nth_error option_map].
    + now rewrite Nat.add_0_r.
    + rewrite IH. now rewrite Nat.add_succ_comm.
Qed.

Lemma processHistogram_length h : forall index,
  List.length (Home.processHistogram index h) = List.length h.
Proof.
  induction h as [|value rest IH]; intros index; cbn; [reflexivity|].
  now rewrite IH.
Qed.

(** After a successful response the histogram data has one entry per bin of
    the response's histogram, in order, the entry at position [i] having bin
    [i] and the [i]-th count as frequency; a response without a histogram,
    or with an empty one, leaves no histogram data. *)
Theorem home_histogram_data_of_response (s : Home.State) (data : Home.DetectionResponse) :
  let bins := match Home.histogram data with Some h => h | None => [] end in
  let shown := Home.histogramData (Home.view (Home.onSettled (Home.Resolved data) s)) in
  List.length shown = List.length bins
  /\ forall i, nth_error shown i
               = option_map (fun value => {| Home.bin := i; Home.frequency := value |})
                            (nth_error bins i).
Proof.
  cbv zeta. unfold Home.onSettled.
  destruct (Home.histogram data) as [[|q qs]|]; cbn [Home.view Home.upd_view
    Home.histogramData Home.setHistogramData Home.setIsDetecting].
  - split; [reflexivity|]. intros i. now destruct i.
  - split; [apply processHistogram_length|].
    intros i. apply (processHistogram_nth (q :: qs) 0 i).
  - split; [reflexivity|]. intros i. now destruct i.
Qed.

(** ** The canvas *)

Lemma matchVideo_dimensions canvas video :
  width (matchVideo canvas video) = videoWidth video
  /\ height (matchVideo canvas video) = videoHeight video.
Proof.
  unfold matchVideo.
  destruct (width canvas =? videoWidth video)%N eqn:Ew;
    destruct (height canvas =? videoHeight video)%N eqn:Eh; cbn; auto.
  apply N.eqb_eq in Ew, Eh. auto.
Qed.

(** In both views, a cycle that passes the guard leaves the canvas with the
    dimensions of the video, whatever its size was and whether or not the
    frame could then be drawn. *)
Theorem cycle_sizes_canvas_to_video
    (h : Home.State) (c : Home.Closure) (d : DriverView.State) (env : CaptureEnv)
    (hv dv : HTMLVideoElement) :
  home_ready h = true -> Home.videoRef h = Some hv ->
  driver_ready d = true -> DriverView.videoRef d = Some dv ->
  (exists canvas, Home.canvasRef (Home.captureAndDetect c env h) = Some canvas
                  /\ width canvas = videoWidth hv /\ height canvas = videoHeight hv)
  /\ (exists canvas, DriverView.canvasRef (DriverView.captureAndDetect env d) = Some canvas
                     /\ width canvas = videoWidth dv /\ height canvas = videoHeight dv).
Proof.
  intros Hh Hhv Hd Hdv.
  apply guardPasses_inv in Hh as (v1 & c1 & Hv1 & Hc1 & Hg1).
  apply guardPasses_inv in Hd as (v2 & c2 & Hv2 & Hc2 & Hg2).
  rewrite Hhv in Hv1. rewrite Hdv in Hv2. injection Hv1 as <-. injection Hv2 as <-.
  split.
  - exists (matchVideo c1 hv). split; [|apply matchVideo_dimensions].
    unfold Home.captureAndDetect. rewrite Hhv, Hc1, Hg1.
    destruct (negb (contextAvailable env)); [reflexivity|].
    destruct (negb (drawSucceeds env)); reflexivity.
  - exists (matchVideo c2 dv). split; [|apply matchVideo_dimensions].
    unfold DriverView.captureAndDetect. rewrite Hdv, Hc2, Hg2.
    destruct (negb (contextAvailable env)); [reflexivity|].
    destruct (negb (drawSucceeds env)); reflexivity.
Qed.

Lemma cycle_sizes_canvas_to_video_witness :
  let h := Home.run Home.mounted
             [Home.StartCamera; Home.UserMediaResolved 0 rearCamera] in
  exists canvas,
    Home.canvasRef (Home.captureAndDetect defaultClosure drawThrows h) = Some canvas
    /\ width canvas = 0%N /\ height canvas = 0%N.
Proof.
  cbv zeta.
  exact (proj1 (cycle_sizes_canvas_to_video
                  (Home.run Home.mounted
                     [Home.StartCamera; Home.UserMediaResolved 0 rearCamera])
                  defaultClosure
                  (DriverView.run DriverView.mounted
                     [DriverView.StartCamera; DriverView.UserMediaResolved rearCamera])
                  drawThrows
                  {| srcObject := Some rearCamera; paused := false; ended := false;
                     videoWidth := 0; videoHeight := 0 |}
                  {| srcObject := Some rearCamera; paused := false; ended := false;
                     videoWidth := 0; videoHeight := 0 |}
                  eq_refl eq_refl eq_refl eq_refl)).
Defined.

(** ** The tracks of the camera *)

(** In both views, when a granted camera is attached to the mounted video
    element and the view is then stopped, the tracks that are live afterwards
    are exactly those that were live before the grant and do not belong to
    the granted stream: acquiring and stopping leaves none of the acquired
    tracks live and stops no other track. *)
Theorem acquire_then_stop_releases
    (h : Home.State) (c : Home.Closure) (d : DriverView.State)
    (stream : MediaStream) (hv dv : HTMLVideoElement) (t : MediaStreamTrack) :
  Home.videoRef h = Some hv -> DriverView.videoRef d = Some dv ->
  (In t (Home.liveTracks (Home.stopCamera (Home.startCamera_acquired c stream h)))
   <-> In t (Home.liveTracks h) /\ ~ In t stream)
  /\ (In t (DriverView.liveTracks
              (DriverView.stopCamera (DriverView.startCamera_acquired stream d)))
      <-> In t (DriverView.liveTracks d) /\ ~ In t stream).
Proof.
  intros Hh Hd. split.
  - unfold Home.startCamera_acquired, Home.stopCamera, Home.stopDetectionLoop.
    cbn. rewrite Hh. cbn.
    destruct (Home.intervalRef h); cbn; rewrite stopTracks_In, in_app_iff; tauto.
  - unfold DriverView.startCamera_acquired, DriverView.stopCamera,
      DriverView.stopDetectionLoop.
    cbn. rewrite Hd. cbn.
    destruct (DriverView.intervalRef d); cbn; rewrite stopTracks_In, in_app_iff; tauto.
Qed.

Lemma acquire_then_stop_releases_witness :
  ~ In 7 (Home.liveTracks
            (Home.stopCamera (Home.startCamera_acquired defaultClosure rearCamera Home.mounted))).
Proof.
  intros H.
  apply (proj1 (proj1 (acquire_then_stop_releases Home.mounted defaultClosure
                         DriverView.mounted rearCamera idleVideo idleVideo 7
                         eq_refl eq_refl))) in H.
  destruct H as [H _]. exact H.
Defined.

(** In both views, when two requests for the camera are both granted before
    the view is stopped, the second stream replaces the first on the video
    element without stopping it, and stop releases only the second: every
    track of the first stream that is not also in the second stays live. *)
Theorem overlapping_grants_leak_first_stream
    (h : Home.State) (c1 c2 : Home.Closure) (d : DriverView.State)
    (first second : MediaStream) (hv dv : HTMLVideoElement) (t : MediaStreamTrack) :
  Home.videoRef h = Some hv -> DriverView.videoRef d = Some dv ->
  In t first -> ~ In t second ->
  In t (Home.liveTracks
          (Home.stopCamera
             (Home.startCamera_acquired c2 second (Home.startCamera_acquired c1 first h))))
  /\ In t (DriverView.liveTracks
             (DriverView.stopCamera
                (DriverView.startCamera_acquired second
                   (DriverView.startCamera_acquired first d)))).
Proof.
  intros Hh Hd H1 H2. split.
  - unfold Home.startCamera_acquired, Home.stopCamera, Home.stopDetectionLoop.
    cbn. rewrite Hh. cbn.
    destruct (Home.intervalRef h); cbn; rewrite stopTracks_In, !in_app_iff; tauto.
  - unfold DriverView.startCamera_acquired, DriverView.stopCamera,
      DriverView.stopDetectionLoop.
    cbn. rewrite Hd. cbn.
    destruct (DriverView.intervalRef d); cbn; rewrite stopTracks_In, !in_app_iff; tauto.
Qed.

Lemma overlapping_grants_leak_first_stream_witness :
  In 7 (Home.liveTracks
          (Home.run Home.mounted
             [Home.StartCamera; Home.StopCamera; Home.StartCamera;
              Home.UserMediaResolved 0 rearCamera; Home.UserMediaResolved 0 [8];
              Home.StopCamera])).
Proof.
  assert (Hn : ~ In 7 [8]) by (cbn; intros [E|[]]; discriminate E).
  exact (proj1 (overlapping_grants_leak_first_stream Home.mounted
                  defaultClosure defaultClosure DriverView.mounted
                  rearCamera [8] idleVideo idleVideo 7
                  eq_refl eq_refl (or_introl eq_refl) Hn)).
Defined.

(** ** An encoded tick of a running loop *)

Lemma run_app_home s es1 es2 :
  Home.run s (es1 ++ es2) = Home.run (Home.run s es1) es2.
Proof. unfold Home.run. apply fold_left_app. Qed.

Lemma home_encoded_tick s t env blob :
  home_running s t -> contextAvailable env = true -> drawSucceeds env = true ->
  let s2 := Home.run s [Home.Tick env;
                        Home.BlobReady (List.length (Home.encoding s)) (Some blob)] in
  home_running s2 t
  /\ Home.encoding s2 = Home.encoding s
  /\ Home.inFlight s2 = Home.inFlight s ++ [Home.detectRequest (Home.callback t) blob].
Proof.
  intros (Hi & Hr & Hon) Hc Hd. cbv zeta.
  pose proof Hr as Hr'.
  apply guardPasses_inv in Hr' as (video & canvas & Hv & Hcv & Hg).
  assert (E : Home.step s (Home.Tick env)
              = Home.syncRef
                  (Home.set_encoding (Home.encoding s ++ [Home.callback t])
                     (Home.set_canvasRef (Some (matchVideo canvas video)) s))).
  { unfold Home.step. cbn [Home.dispatch]. rewrite Hi.
    unfold Home.captureAndDetect. now rewrite Hv, Hcv, Hg, Hc, Hd. }
  unfold Home.run. cbn [fold_left]. rewrite E.
  unfold Home.step. cbn [Home.dispatch Home.syncRef Home.set_isCameraOnRef
    Home.encoding Home.set_encoding Home.set_canvasRef].
  rewrite take_nth_last. cbn.
  unfold home_running. cbn.
  repeat split; try assumption.
  unfold home_ready in *. cbn. rewrite Hv, Hcv in Hr. rewrite Hv, Hon.
  unfold guardPasses in *. destruct (Home.isCameraOnRef s); [exact Hr | discriminate Hr].
Qed.

(** ** The thresholds a running loop sends *)

Lemma home_slider_keeps_loop s t e :
  isSlider e = true -> home_running s t ->
  home_running (Home.step s e) t
  /\ Home.encoding (Home.step s e) = Home.encoding s
  /\ Home.inFlight (Home.step s e) = Home.inFlight s.
Proof.
  intros He (Hi & Hr & Hon). unfold home_running.
  destruct e; try discriminate He; unfold Home.step; cbn;
    (repeat split; try assumption);
    unfold home_ready in *; cbn; rewrite Hon;
    unfold guardPasses in *;
    destruct (Home.videoRef s), (Home.canvasRef s), (Home.isCameraOnRef s);
    try discriminate Hr; exact Hr.
Qed.

Lemma home_sliders_keep_loop sl : forall s t,
  forallb isSlider sl = true -> home_running s t ->
  home_running (Home.run s sl) t
  /\ Home.encoding (Home.run s sl) = Home.encoding s
  /\ Home.inFlight (Home.run s sl) = Home.inFlight s.
Proof.
  induction sl as [|e sl IH]; intros s t Hs Hrun; [now cbn|].
  cbn in Hs. apply andb_true_iff in Hs as [He Hs].
  destruct (home_slider_keeps_loop s t e He Hrun) as (H1 & H2 & H3).
  destruct (IH (Home.step s e) t Hs H1) as (G1 & G2 & G3).
  unfold Home.run in *. cbn [fold_left].
  split; [exact G1 | split; [now rewrite G2 | now rewrite G3]].
Qed.

(** Moving the sliders of the developer view while the loop runs changes the
    thresholds the view displays, not the ones the loop sends: the request
    of the next encoded tick still carries the thresholds that the timer's
    callback captured when the camera was started. *)
Theorem sliders_do_not_reach_running_loop
    (s : Home.State) (t : Home.Timer) (sl : list Home.Event) (q : Q)
    (env : CaptureEnv) (blob : Blob) :
  home_running s t -> forallb isSlider sl = true ->
  contextAvailable env = true -> drawSucceeds env = true ->
  Home.laplacianThreshold (Home.view (Home.run s (sl ++ [Home.LaplacianSlider q]))) = q
  /\ Home.histStdDevThreshold (Home.view (Home.run s (sl ++ [Home.StdDevSlider q]))) = q
  /\ Home.inFlight
       (Home.run s (sl ++ [Home.Tick env;
                           Home.BlobReady (List.length (Home.encoding s)) (Some blob)]))
     = Home.inFlight s ++ [Home.detectRequest (Home.callback t) blob].
Proof.
  intros Hrun Hs Hc Hd.
  destruct (home_sliders_keep_loop sl s t Hs Hrun) as (H1 & H2 & H3).
  rewrite !run_app_home. repeat split.
  rewrite <- H2.
  destruct (home_encoded_tick (Home.run s sl) t env blob H1 Hc Hd) as (_ & _ & Hf).
  rewrite Hf, H3. reflexivity.
Qed.

Lemma sliders_do_not_reach_running_loop_witness :
  let s := Home.run Home.mounted home_session in
  let s' := Home.run s [Home.LaplacianSlider 100; Home.StdDevSlider 20;
                        Home.Tick working; Home.BlobReady 0 (Some jpeg)] in
  Home.laplacianThreshold (Home.view s') = 100%Q
  /\ Home.inFlight s' = Home.inFlight s ++ [Home.detectRequest defaultClosure jpeg].
Proof.
  cbv zeta. split; [reflexivity|].
  exact (proj2 (proj2 (sliders_do_not_reach_running_loop
                         (Home.run Home.mounted home_session)
                         {| Home.period := 1000; Home.callback := defaultClosure |}
                         [Home.LaplacianSlider 100; Home.StdDevSlider 20] 0%Q working jpeg
                         (conj eq_refl (conj eq_refl eq_refl)) eq_refl eq_refl eq_refl))).
Defined.

(** A session of the developer view sends the thresholds that were displayed
    when it was started: once the camera is granted and the metadata has
    arrived, the timer is installed with the view's period and a callback
    that captured the thresholds of the state in which start was called. *)
Theorem new_session_captures_displayed_thresholds
    (s : Home.State) (v : HTMLVideoElement) (stream : MediaStream)
    (w h : N) (env : CaptureEnv) :
  Home.videoRef s = Some v -> Home.metadataListeners s = [] ->
  Home.intervalRef
    (Home.run s [Home.StartCamera;
                 Home.UserMediaResolved (List.length (Home.acquiring s)) stream;
                 Home.LoadedMetadata w h env])
  = Some {| Home.period := Home.DETECTION_INTERVAL_MS;
            Home.callback := {| Home.capturedLaplacian := Home.laplacianThreshold (Home.view s);
                                Home.capturedStdDev := Home.histStdDevThreshold (Home.view s) |} |}.
Proof.
  intros Hv Hl. unfold Home.run. cbn [fold_left].
  set (s1 := Home.step s Home.StartCamera).
  assert (Ha : Home.acquiring s1 = Home.acquiring s ++ [Home.currentClosure s])
    by reflexivity.
  assert (Hv1 : Home.videoRef s1 = Some v) by exact Hv.
  assert (Hl1 : Home.metadataListeners s1 = []) by exact Hl.
  clearbody s1.
  set (s2 := Home.step s1 (Home.UserMediaResolved (List.length (Home.acquiring s)) stream)).
  assert (Hs2 : exists v2, Home.videoRef s2 = Some v2
                           /\ Home.metadataListeners s2 = [Home.currentClosure s]).
  { subst s2. unfold Home.step. cbn [Home.dispatch]. rewrite Ha, take_nth_last.
    unfold Home.startCamera_acquired. cbn. rewrite Hv1. cbn. rewrite Hl1. eauto. }
  destruct Hs2 as (v2 & Hv2 & Hl2). clearbody s2.
  unfold Home.step. cbn [Home.dispatch]. rewrite Hv2. cbn. rewrite Hl2. reflexivity.
Qed.

Lemma new_session_captures_displayed_thresholds_witness :
  let s := Home.run Home.mounted
             (home_session ++ [Home.LaplacianSlider 100; Home.StopCamera]) in
  option_map Home.callback
    (Home.intervalRef
       (Home.run s [Home.StartCamera; Home.UserMediaResolved 0 rearCamera;
                    Home.LoadedMetadata 640 480 working]))
  = Some {| Home.capturedLaplacian := 100; Home.capturedStdDev := 40 |}.
Proof.
  cbv zeta.
  exact (f_equal (option_map Home.callback)
           (new_session_captures_displayed_thresholds
              (Home.run Home.mounted
                 (home_session ++ [Home.LaplacianSlider 100; Home.StopCamera]))
              {| srcObject := None; paused := false; ended := false;
                 videoWidth := 640; videoHeight := 480 |}
              rearCamera 640 480 working eq_refl eq_refl)).
Defined.

(** ** What stop leaves pending *)

Lemma home_stopCamera_pending s :
  Home.encoding (Home.stopCamera s) = Home.encoding s
  /\ Home.acquiring (Home.stopCamera s) = Home.acquiring s
  /\ Home.metadataListeners (Home.stopCamera s) = Home.metadataListeners s.
Proof.
  unfold Home.stopCamera, Home.stopDetectionLoop. cbn. repeat split; by_cases.
Qed.

Lemma driver_stopCamera_pending s :
  DriverView.encoding (DriverView.stopCamera s) = DriverView.encoding s
  /\ DriverView.acquiring (DriverView.stopCamera s) = DriverView.acquiring s
  /\ DriverView.metadataListeners (DriverView.stopCamera s)
     = DriverView.metadataListeners s.
Proof.
  unfold DriverView.stopCamera, DriverView.stopDetectionLoop. cbn. repeat split; by_cases.
Qed.

(** In both views stop does not withdraw a frame that is with the encoder:
    when the encoder delivers it after stop, its request is posted all the
    same and the detecting indicator is set again, with the camera flag off
    and the timer cancelled. *)
Theorem pending_encode_posts_after_stop
    (h : Home.State) (i : nat) (c : Home.Closure) (d : DriverView.State) (n : nat)
    (blob : Blob) :
  nth_error (Home.encoding h) i = Some c -> DriverView.encoding d = S n ->
  let h' := Home.run h [Home.StopCamera; Home.BlobReady i (Some blob)] in
  let d' := DriverView.run d [DriverView.StopCamera; DriverView.BlobReady (Some blob)] in
  (Home.inFlight h' = Home.inFlight h ++ [Home.detectRequest c blob]
   /\ Home.isDetecting (Home.view h') = true
   /\ Home.isCameraOn (Home.view h') = false
   /\ Home.intervalRef h' = None)
  /\ (DriverView.inFlight d' = DriverView.inFlight d ++ [DriverView.detectRequest blob]
      /\ DriverView.isDetecting (DriverView.view d') = true
      /\ DriverView.isCameraOn (DriverView.view d') = false
      /\ DriverView.intervalRef d' = None).
Proof.
  intros Hi Hn. cbv zeta. unfold Home.run, DriverView.run. cbn [fold_left].
  unfold Home.step, DriverView.step. cbn [Home.dispatch DriverView.dispatch].
  cbn [Home.syncRef Home.set_isCameraOnRef Home.encoding
       DriverView.syncRef DriverView.set_isCameraOnRef DriverView.encoding].
  destruct (home_stopCamera_pending h) as (-> & _ & _).
  destruct (driver_stopCamera_pending d) as (-> & _ & _).
  rewrite (take_nth_of_nth_error _ _ _ Hi), Hn.
  pose proof (home_stopCamera_inFlight h) as Hf.
  pose proof (driver_stopCamera_inFlight d) as Hf'.
  pose proof (home_stopCamera_interval h) as Ht.
  pose proof (driver_stopCamera_interval d) as Ht'.
  assert (Hc : Home.isCameraOn (Home.view (Home.stopCamera h)) = false) by reflexivity.
  assert (Hc' : DriverView.isCameraOn (DriverView.view (DriverView.stopCamera d)) = false)
    by reflexivity.
  revert Hf Hf' Ht Ht' Hc Hc'.
  generalize (Home.stopCamera h) (DriverView.stopCamera d).
  intros hs ds Hf Hf' Ht Ht' Hc Hc'. cbn. rewrite Hf, Hf'.
  repeat split; assumption.
Qed.

Lemma pending_encode_posts_after_stop_witness :
  let h := Home.run Home.mounted
             [Home.StartCamera; Home.UserMediaResolved 0 rearCamera;
              Home.LoadedMetadata 640 480 working] in
  Home.inFlight (Home.run h [Home.StopCamera; Home.BlobReady 0 (Some jpeg)])
  = [Home.detectRequest defaultClosure jpeg].
Proof.
  cbv zeta.
  exact (proj1 (proj1 (pending_encode_posts_after_stop
                         (Home.run Home.mounted
                            [Home.StartCamera; Home.UserMediaResolved 0 rearCamera;
                             Home.LoadedMetadata 640 480 working])
                         0 defaultClosure
                         (DriverView.run DriverView.mounted
                            [DriverView.StartCamera; DriverView.UserMediaResolved rearCamera;
                             DriverView.LoadedMetadata 640 480 working])
                         0 jpeg eq_refl eq_refl))).
Defined.

(** In both views stop does not withdraw a request for the camera that has
    not been answered: when the camera is granted after stop, the stream is
    attached to the video element, its tracks are live, the camera flag is
    set, and the metadata listener that will start the loop is registered. *)
Theorem grant_after_stop_turns_camera_on
    (h : Home.State) (i : nat) (c : Home.Closure) (hv : HTMLVideoElement)
    (d : DriverView.State) (n : nat) (dv : HTMLVideoElement) (stream : MediaStream) :
  Home.videoRef h = Some hv -> nth_error (Home.acquiring h) i = Some c ->
  DriverView.videoRef d = Some dv -> DriverView.acquiring d = S n ->
  let h' := Home.run h [Home.StopCamera; Home.UserMediaResolved i stream] in
  let d' := DriverView.run d [DriverView.StopCamera; DriverView.UserMediaResolved stream] in
  (Home.isCameraOn (Home.view h') = true
   /\ Home.isCameraOnRef h' = true
   /\ attached (Home.videoRef h') = Some stream
   /\ incl stream (Home.liveTracks h')
   /\ Home.metadataListeners h' = Home.metadataListeners h ++ [c])
  /\ (DriverView.isCameraOn (DriverView.view d') = true
      /\ DriverView.isCameraOnRef d' = true
      /\ attached (DriverView.videoRef d') = Some stream
      /\ incl stream (DriverView.liveTracks d')
      /\ DriverView.metadataListeners d' = S (DriverView.metadataListeners d)).
Proof.
  intros Hv Hi Hdv Hn. cbv zeta. unfold Home.run, DriverView.run. cbn [fold_left].
  unfold Home.step, DriverView.step. cbn [Home.dispatch DriverView.dispatch].
  cbn [Home.syncRef Home.set_isCameraOnRef Home.acquiring
       DriverView.syncRef DriverView.set_isCameraOnRef DriverView.acquiring].
  destruct (home_stopCamera_pending h) as (_ & -> & Hl).
  destruct (driver_stopCamera_pending d) as (_ & -> & Hl').
  rewrite (take_nth_of_nth_error _ _ _ Hi), Hn.
  assert (Hsv : exists v', Home.videoRef (Home.stopCamera h) = Some v').
  { unfold Home.stopCamera, Home.stopDetectionLoop. cbn.
    destruct (Home.intervalRef h); cbn; rewrite Hv; destruct (srcObject hv); cbn; eauto. }
  assert (Hsv' : exists v', DriverView.videoRef (DriverView.stopCamera d) = Some v').
  { unfold DriverView.stopCamera, DriverView.stopDetectionLoop. cbn.
    destruct (DriverView.intervalRef d); cbn; rewrite Hdv; destruct (srcObject dv);
      cbn; eauto. }
  destruct Hsv as [v1 Hv1]. destruct Hsv' as [v2 Hv2].
  revert Hl Hl' Hv1 Hv2.
  generalize (Home.stopCamera h) (DriverView.stopCamera d).
  intros hs ds Hl Hl' Hv1 Hv2.
  unfold Home.startCamera_acquired, DriverView.startCamera_acquired.
  cbn. rewrite Hv1, Hv2. cbn. rewrite Hl, Hl'.
  repeat split; try reflexivity; intros t Ht; apply in_or_app; now right.
Qed.

Lemma grant_after_stop_turns_camera_on_witness :
  let h := Home.run Home.mounted [Home.StartCamera; Home.StopCamera;
                                  Home.UserMediaResolved 0 rearCamera] in
  Home.isCameraOn (Home.view h) = true /\ Home.liveTracks h = rearCamera.
Proof.
  cbv zeta. split; [|reflexivity].
  exact (proj1 (proj1 (grant_after_stop_turns_camera_on
                         (Home.run Home.mounted [Home.StartCamera]) 0 defaultClosure
                         idleVideo
                         (DriverView.run DriverView.mounted [DriverView.StartCamera]) 0
                         idleVideo rearCamera eq_refl eq_refl eq_refl eq_refl))).
Defined.

(** ** Responses that resolve out of order *)

Lemma take_nth_keeps_earlier {A} (l : list A) i j a b :
  i < j -> nth_error l i = Some a -> nth_error l j = Some b ->
  exists rest, take_nth j l = Some (b, rest) /\ nth_error rest i = Some a.
Proof.
  intros Hij Hi Hj. unfold take_nth. rewrite Hj. eexists. split; [reflexivity|].
  assert (Hlen : j < List.length l) by (apply nth_error_Some; congruence).
  rewrite nth_error_app1 by (rewrite length_firstn; lia).
  rewrite nth_error_firstn. apply Nat.ltb_lt in Hij. now rewrite Hij.
Qed.

Lemma home_onSettled_inFlight o s :
  Home.inFlight (Home.onSettled o s) = Home.inFlight s.
Proof. unfold Home.onSettled. destruct o; cbn; by_cases. Qed.

Lemma home_onSettled_result data s :
  Home.detectionResult (Home.view (Home.onSettled (Home.Resolved data) s)) = Some data.
Proof. unfold Home.onSettled. cbn. by_cases. Qed.

(** In both views the result on display is that of the response that
    resolved last, not of the request that was issued last: when two
    submissions are unresolved and the later one resolves first, the response
    of the earlier one replaces its result. *)
Theorem earlier_request_overrides_later_result
    (h : Home.State) (i j : nat) (older newer : Request)
    (dOld dNew : Home.DetectionResponse)
    (d : DriverView.State) (i' j' : nat) (older' newer' : Request)
    (dOld' dNew' : DriverView.DetectionResponse) :
  i < j -> nth_error (Home.inFlight h) i = Some older ->
  nth_error (Home.inFlight h) j = Some newer ->
  i' < j' -> nth_error (DriverView.inFlight d) i' = Some older' ->
  nth_error (DriverView.inFlight d) j' = Some newer' ->
  Home.detectionResult
    (Home.view (Home.run h [Home.Settled j (Home.Resolved dNew);
                            Home.Settled i (Home.Resolved dOld)])) = Some dOld
  /\ DriverView.detectionResult
       (DriverView.view
          (DriverView.run d [DriverView.Settled j' (DriverView.Resolved dNew');
                             DriverView.Settled i' (DriverView.Resolved dOld')]))
     = Some dOld'.
Proof.
  intros Hij Hi Hj Hij' Hi' Hj'.
  destruct (take_nth_keeps_earlier _ _ _ _ _ Hij Hi Hj) as (rest & Ht & Hr).
  destruct (take_nth_keeps_earlier _ _ _ _ _ Hij' Hi' Hj') as (rest' & Ht' & Hr').
  unfold Home.run, DriverView.run. cbn [fold_left].
  unfold Home.step, DriverView.step. cbn [Home.dispatch DriverView.dispatch].
  rewrite Ht, Ht'. split.
  - cbn [Home.syncRef Home.set_isCameraOnRef Home.inFlight].
    rewrite home_onSettled_inFlight. cbn [Home.inFlight Home.set_inFlight].
    rewrite (take_nth_of_nth_error _ _ _ Hr). cbn [Home.view].
    apply home_onSettled_result.
  - cbn. rewrite (take_nth_of_nth_error _ _ _ Hr'). reflexivity.
Qed.

Lemma earlier_request_overrides_later_result_witness :
  Home.detectionResult
    (Home.view
       (Home.run (Home.run Home.mounted home_slow_service)
          [Home.Settled 1 (Home.Resolved home_foggy);
           Home.Settled 0 (Home.Resolved home_foggy)])) = Some home_foggy.
Proof.
  exact (proj1 (earlier_request_overrides_later_result
                  (Home.run Home.mounted home_slow_service) 0 1
                  (Home.detectRequest defaultClosure jpeg)
                  (Home.detectRequest defaultClosure jpeg) home_foggy home_foggy
                  (DriverView.run DriverView.mounted driver_slow_service) 0 1
                  (DriverView.detectRequest jpeg) (DriverView.detectRequest jpeg)
                  driver_foggy driver_foggy
                  (le_n 1) eq_refl eq_refl (le_n 1) eq_refl eq_refl)).
Defined.

(** ** The error message of a server answer *)

Lemma string_of_nat_injective a b : string_of_nat a = string_of_nat b -> a = b.
Proof.
  unfold string_of_nat. intros H.
  apply (f_equal NilEmpty.uint_of_string) in H. rewrite !NilEmpty.usu in H.
  injection H as H. apply (f_equal Nat.of_uint) in H.
  now rewrite !DecimalNat.Unsigned.of_to in H.
Qed.

(** In the driver view the message published for an answer with an error
    status tells the status: two server errors have the same message only
    when they have the same status. *)
Theorem server_error_message_tells_status (a b : nat) :
  DriverView.errorMsg (serverError a) = DriverView.errorMsg (serverError b) -> a = b.
Proof.
  cbn. intros H. injection H as H. now apply string_of_nat_injective.
Qed.

Lemma server_error_message_tells_status_witness :
  DriverView.errorMsg (serverError 500) = DriverView.errorMsg (serverError 500)
  /\ 500 = 500.
Proof.
  split; [reflexivity|].
  exact (server_error_message_tells_status 500 500 eq_refl).
Defined.

(** ** What is on display *)

(** In both views a failed cycle leaves the display as for clear conditions:
    the developer view takes the clear-sky background, and the driver view,
    while it publishes the error, styles its card as for intensity Clear and,
    when the camera is on and not loading, shows it as still initializing. *)
Theorem failed_cycle_displays_as_clear
    (h : Home.State) (d : DriverView.State) (err : CaughtError) :
  DriverView.isLoading (DriverView.view d) = false ->
  DriverView.isCameraOnRef d = true ->
  Home.backgroundClass (Home.onSettled (Home.Rejected err) h) = "bg-clear-sky"%string
  /\ DriverView.intensityStyles (DriverView.onSettled (DriverView.Rejected err) d)
     = DriverView.getIntensityStyles (Some DriverView.Clear)
  /\ DriverView.adviceCard (DriverView.onSettled (DriverView.Rejected err) d)
     = DriverView.Waiting "Initializing..."
  /\ DriverView.error (DriverView.view (DriverView.onSettled (DriverView.Rejected err) d))
     = Some (DriverView.errorMsg err).
Proof.
  intros Hl Hr. repeat split.
  - unfold DriverView.adviceCard. cbn. now rewrite Hl, Hr.
  - cbn. now rewrite keepIfSame_value.
Qed.

Lemma failed_cycle_displays_as_clear_witness :
  DriverView.adviceCard (DriverView.run DriverView.mounted
                           (driver_session
                            ++ [DriverView.Settled 0 (DriverView.Resolved driver_foggy);
                                DriverView.Tick working; DriverView.BlobReady (Some jpeg);
                                DriverView.Settled 0 (DriverView.Rejected timeoutError)]))
  = DriverView.Waiting "Initializing...".
Proof.
  exact (proj1 (proj2 (proj2
           (failed_cycle_displays_as_clear Home.mounted
              (DriverView.set_inFlight []
                 (DriverView.run DriverView.mounted
                    (driver_session
                     ++ [DriverView.Settled 0 (DriverView.Resolved driver_foggy);
                         DriverView.Tick working; DriverView.BlobReady (Some jpeg)])))
              timeoutError eq_refl eq_refl)))).
Defined.

(** In the developer view a response that succeeds after stop is put on
    display: the status line shows its message (or, without one, whether fog
    was detected), while the histogram card says that the camera is off. *)
Theorem home_status_shows_late_result
    (h : Home.State) (i : nat) (rq : Request) (data : Home.DetectionResponse) :
  nth_error (Home.inFlight h) i = Some rq ->
  let late := Home.dispatch (Home.step h Home.StopCamera)
                            (Home.Settled i (Home.Resolved data)) in
  Home.statusText late
  = match Home.message data with
    | Some m => m
    | None => if Home.fog_detected data then "Fog Detected"%string else "Clear"%string
    end
  /\ Home.histogramCard late = Home.Placeholder "Camera Off".
Proof.
  intros Hi. cbv zeta. unfold Home.step. cbn [Home.dispatch].
  cbn [Home.syncRef Home.set_isCameraOnRef Home.inFlight].
  rewrite home_stopCamera_inFlight, (take_nth_of_nth_error _ _ _ Hi).
  unfold Home.onSettled, Home.statusText, Home.histogramCard.
  destruct (Home.histogram data) as [[|q qs]|]; cbn; auto.
Qed.

Lemma home_status_shows_late_result_witness :
  Home.statusText
    (Home.dispatch (Home.run Home.mounted (home_session ++ [Home.StopCamera]))
                   (Home.Settled 0 (Home.Resolved home_foggy)))
  = "Fog Detected"%string.
Proof.
  exact (proj1 (home_status_shows_late_result
                  (Home.run Home.mounted home_session) 0
                  (Home.detectRequest defaultClosure jpeg) home_foggy eq_refl)).
Defined.

(** The render that follows stop reads the camera ref before the effect has
    cleared it: when the ref was set, the developer view's status line reads
    "Initializing..." and the driver view's card shows it as initializing,
    not that the camera is off; once the ref is cleared the same state
    renders as "Camera Off" and as disconnected. *)
Theorem render_after_stop_takes_camera_as_on (h : Home.State) (d : DriverView.State) :
  Home.isCameraOnRef h = true -> DriverView.isCameraOnRef d = true ->
  (Home.statusText (Home.dispatch h Home.StopCamera) = "Initializing..."%string
   /\ Home.statusText (Home.step h Home.StopCamera) = "Camera Off"%string)
  /\ (DriverView.adviceCard (DriverView.dispatch d DriverView.StopCamera)
      = DriverView.Waiting "Initializing..."
      /\ DriverView.adviceCard (DriverView.step d DriverView.StopCamera)
         = DriverView.CameraDisconnected).
Proof.
  intros Hh Hd.
  assert (Hr : Home.isCameraOnRef (Home.stopCamera h) = true).
  { unfold Home.stopCamera, Home.stopDetectionLoop. cbn. rewrite <- Hh. by_cases. }
  assert (Hr' : DriverView.isCameraOnRef (DriverView.stopCamera d) = true).
  { unfold DriverView.stopCamera, DriverView.stopDetectionLoop. cbn. rewrite <- Hd.
    by_cases. }
  repeat split.
  - cbn [Home.dispatch]. unfold Home.statusText. now rewrite Hr.
  - cbn [DriverView.dispatch]. unfold DriverView.adviceCard. now rewrite Hr'.
Qed.

Lemma render_after_stop_takes_camera_as_on_witness :
  Home.statusText
    (Home.dispatch (Home.run Home.mounted home_session) Home.StopCamera)
  = "Initializing..."%string.
Proof.
  exact (proj1 (proj1 (render_after_stop_takes_camera_as_on
                         (Home.run Home.mounted home_session)
                         (DriverView.run DriverView.mounted driver_session)
                         eq_refl eq_refl))).
Defined.

(** ** The detecting indicator *)

Lemma take_nth_length {A} i (l : list A) a rest :
  take_nth i l = Some (a, rest) -> S (List.length rest) = List.length l.
Proof.
  unfold take_nth. destruct (nth_error l i) eqn:E; [|discriminate].
  intros H. injection H as _ H. rewrite <- H.
  assert (Hi : i < List.length l) by (apply nth_error_Some; congruence).
  change (match l with [] => [] | _ :: l0 => skipn i l0 end) with (skipn (S i) l).
  rewrite length_app, length_firstn, length_skipn. lia.
Qed.

(** In both views the detecting indicator is not a count of what is
    unresolved: when several submissions are in flight, the first response
    to resolve, whatever its outcome, clears the indicator although the
    other submissions are still unresolved. *)
Theorem first_response_clears_detecting_indicator
    (h : Home.State) (i : nat) (rq : Request) (o : Home.Outcome)
    (d : DriverView.State) (i' : nat) (rq' : Request) (o' : DriverView.Outcome) :
  nth_error (Home.inFlight h) i = Some rq -> 2 <= List.length (Home.inFlight h) ->
  nth_error (DriverView.inFlight d) i' = Some rq' ->
  2 <= List.length (DriverView.inFlight d) ->
  let h' := Home.step h (Home.Settled i o) in
  let d' := DriverView.step d (DriverView.Settled i' o') in
  (Home.isDetecting (Home.view h') = false /\ Home.inFlight h' <> [])
  /\ (DriverView.isDetecting (DriverView.view d') = false
      /\ DriverView.inFlight d' <> []).
Proof.
  intros Hi Hn Hi' Hn'. cbv zeta.
  unfold Home.step, DriverView.step. cbn [Home.dispatch DriverView.dispatch].
  pose proof (take_nth_of_nth_error _ _ _ Hi) as Ht.
  pose proof (take_nth_of_nth_error _ _ _ Hi') as Ht'.
  rewrite Ht, Ht'.
  apply take_nth_length in Ht. apply take_nth_length in Ht'.
  split; split.
  - unfold Home.onSettled. destruct o; cbn; by_cases.
  - cbn [Home.syncRef Home.set_isCameraOnRef Home.inFlight].
    rewrite home_onSettled_inFlight. cbn [Home.inFlight Home.set_inFlight].
    intros E. rewrite E in Ht. cbn in Ht. lia.
  - unfold DriverView.onSettled. destruct o'; reflexivity.
  - assert (E0 : DriverView.inFlight
                   (DriverView.syncRef
                      (DriverView.onSettled o'
                         (DriverView.set_inFlight
                            (firstn i' (DriverView.inFlight d)
                             ++ skipn (S i') (DriverView.inFlight d)) d)))
                 = firstn i' (DriverView.inFlight d) ++ skipn (S i') (DriverView.inFlight d))
      by (destruct o'; reflexivity).
    rewrite E0. intros E. rewrite E in Ht'. cbn in Ht'. lia.
Qed.

Lemma first_response_clears_detecting_indicator_witness :
  let h := Home.run (Home.run Home.mounted home_slow_service)
             [Home.Settled 0 (Home.Rejected timeoutError)] in
  Home.isDetecting (Home.view h) = false
  /\ Home.inFlight h = [Home.detectRequest defaultClosure jpeg].
Proof.
  cbv zeta. split; [|reflexivity].
  exact (proj1 (proj1 (first_response_clears_detecting_indicator
                         (Home.run Home.mounted home_slow_service) 0
                         (Home.detectRequest defaultClosure jpeg)
                         (Home.Rejected timeoutError)
                         (DriverView.run DriverView.mounted driver_slow_service) 0
                         (DriverView.detectRequest jpeg)
                         (DriverView.Rejected timeoutError)
                         eq_refl (le_n 2) eq_refl (le_n 2)))).
Defined.
